(** * pythonista_startup: the custom display hook and exception hook

    A shallow embedding of [customize_sys_hooks.py].  The module installs
    two callbacks in the interactive interpreter:

    - [displayhook] records every non-[None] result in the global list
      [Out] and in the slot [_], then prints it with its index;
    - [excepthook] walks the cause/context chain of an uncaught exception
      and prints a coloured traceback for every link.

    Console output is modelled as a trace of events, Python exceptions
    raised inside the hooks as an error outcome, and the attributes the
    display hook keeps on the [builtins] module as an explicit state. *)

From Stdlib Require Import ZArith QArith List String Ascii DecimalString.
From Stdlib Require PrimFloat SpecFloat FloatOps Uint63.
From stdpp Require Import base option gmap strings list.

Set Warnings "-register-all".

Open Scope Z_scope.
Open Scope list_scope.

(** ** Unicode strings

    A Python [str] is a sequence of code points; slicing, [len] and
    [startswith] all count code points. *)

Abbreviation pystr := (list N).

(** [u "..."] is the literal [u"..."] of the source (ASCII only). *)
Definition u (s : string) : pystr :=
  List.map N_of_ascii (list_ascii_of_string s).

(** [str(n)] / ["{}".format(n)] on an [int]. *)
Definition str_of_int (n : Z) : pystr :=
  u (NilZero.string_of_int (Z.to_int n)).

Fixpoint startswith (s prefix : pystr) : bool :=
  match prefix, s with
  | [], _ => true
  | _ :: _, [] => false
  | p :: prefix', c :: s' => if N.eqb c p then startswith s' prefix' else false
  end.

Definition endswith (s suffix : pystr) : bool :=
  startswith (rev s) (rev suffix).

(** Slice bounds as Python clamps them: a negative bound counts from the
    end, [None] leaves the side open. *)
Definition slice_index (len : nat) (k : Z) : nat :=
  if k <? 0 then Z.to_nat (Z.max 0 (Z.of_nat len + k))
  else Nat.min len (Z.to_nat k).

(** [s[:k]] *)
Definition slice_to (s : pystr) (k : option Z) : pystr :=
  match k with
  | None => s
  | Some k => firstn (slice_index (length s) k) s
  end.

(** [s[k:]] *)
Definition slice_from (s : pystr) (k : option Z) : pystr :=
  match k with
  | None => s
  | Some k => skipn (slice_index (length s) k) s
  end.

(** [str.isspace] on one code point. *)
Definition isspace (c : N) : bool :=
  let c := Z.of_N c in
  ((9 <=? c) && (c <=? 13)) || ((28 <=? c) && (c <=? 32))
  || (c =? 133) || (c =? 160) || (c =? 5760)
  || ((8192 <=? c) && (c <=? 8202))
  || (c =? 8232) || (c =? 8233) || (c =? 8239) || (c =? 8287) || (c =? 12288).

Fixpoint lstrip (s : pystr) : pystr :=
  match s with
  | c :: s' => if isspace c then lstrip s' else s
  | [] => []
  end.

(** [s.rstrip()] *)
Definition rstrip (s : pystr) : pystr := rev (lstrip (rev s)).

(** [s.replace(' ', '%20')] *)
Fixpoint replace_space (s : pystr) : pystr :=
  match s with
  | [] => []
  | c :: s' =>
      if N.eqb c 32 then u "%20" ++ replace_space s' else c :: replace_space s'
  end.

(** U+0332 COMBINING LOW LINE *)
Definition COMBINING_LOW_LINE : pystr := [818%N].

(** ** Colours

    The channel values come out of [UIColor] and of floating-point
    arithmetic on them; the model keeps a colour as the expression that
    computes it. *)

Inductive color : Type :=
| RGB (r g b : Q)                (* literal channels *)
| Hex2rgb (hexcolor : string)    (* hex2rgb(hexcolor) *)
| MeanRound2 (c1 c2 : color).    (* [round((c1[i] + c2[i]) / 2, 2) for i in range(3)] *)

(** ** Errors raised inside the hooks *)

Inductive pyerr : Type :=
| KeyError (key : string)
| TypeError (msg : string)
| UnboundLocalError (name : string)
| AttributeError (name : string)
| Raised (is_exception : bool) (name : string).
    (* raised by user code ([__str__], [__repr__]); [is_exception] tells
       whether its class derives from [Exception] *)

(** [isinstance(err, Exception)] *)
Definition is_Exception (err : pyerr) : bool :=
  match err with
  | Raised b _ => b
  | _ => true
  end.

Inductive result (A : Type) : Type :=
| Ok (a : A)
| Raise (err : pyerr).
Arguments Ok {A} a.
Arguments Raise {A} err.

(** ** Console events *)

Inductive event : Type :=
| SetColor (c : color)            (* console.set_color(r, g, b) *)
| Print (s : pystr)               (* text written by print, with its end *)
| WriteLink (text url : pystr)    (* console.write_link(text, url) *)
| PrintExc (err : pyerr).         (* traceback.print_exc() while handling err *)

(** ** The output/error monad *)

Record M (A : Type) : Type := mkM { trace : list event; outcome : result A }.
Arguments mkM {A} trace outcome.
Arguments trace {A} m.
Arguments outcome {A} m.

#[global] Instance M_ret : MRet M := fun A a => mkM [] (Ok a).

#[global] Instance M_bind : MBind M := fun A B f m =>
  match outcome m with
  | Ok a => mkM (trace m ++ trace (f a)) (outcome (f a))
  | Raise err => mkM (trace m) (Raise err)
  end.

Definition raise {A} (err : pyerr) : M A := mkM [] (Raise err).
Definition emit (ev : event) : M unit := mkM [ev] (Ok tt).

(** [print(s)], [print(s, end=u"")] and [print()] *)
Definition NL : pystr := [10%N].
Definition TAB : pystr := [9%N].
Definition print (s : pystr) : M unit := emit (Print (s ++ NL)).
Definition print_noend (s : pystr) : M unit := emit (Print s).
Definition print_newline : M unit := print [].

(** [try: body except Exception as err: handler] *)
Definition try_except_Exception {A} (body : M A) (handler : pyerr -> M A) : M A :=
  match outcome body with
  | Ok a => body
  | Raise err =>
      if is_Exception err
      then mkM (trace body ++ trace (handler err)) (outcome (handler err))
      else body
  end.

(** [try: body finally: fin]: [fin] always runs; an error raised by [fin]
    replaces whatever [body] produced. *)
Definition try_finally {A} (body : M A) (fin : M unit) : M A :=
  match outcome fin with
  | Ok _ => mkM (trace body ++ trace fin) (outcome body)
  | Raise err => mkM (trace body ++ trace fin) (Raise err)
  end.

(** [for x in xs: body(x)] *)
Fixpoint for_each {A} (xs : list A) (body : A -> M unit) : M unit :=
  match xs with
  | [] => mret tt
  | x :: xs' => body x ;; for_each xs' body
  end.

(** ** The host: theme and installation roots *)

(** [theme_dict]: the top-level colour entries and the nested ["scopes"]
    dictionary ([theme_dict["scopes"][name]["color"]]). *)
Record theme : Type := {
  theme_colors : gmap string string;
  theme_scopes : option (gmap string (gmap string string))
}.

Record host : Type := {
  theme_dict : theme;
  REMOVE_PREFIXES : list pystr;          (* (APP_GROUP_DIR, APP_DIR) *)
  executable_is_Pythonista3 : bool;      (* os.path.basename(sys.executable) == "Pythonista3" *)
  realpath : pystr -> pystr;             (* os.path.realpath *)
  decode_utf8 : list Byte.byte -> pystr  (* bytes.decode(u"utf-8", u"replace") *)
}.

(** [d[key]] *)
Definition getitem {V} (d : gmap string V) (key : string) : M V :=
  match d !! key with
  | Some v => mret v
  | None => raise (KeyError key)
  end.

Definition set_color (h : host) (type_text : string) : M unit :=
  err_hex ← getitem (theme_colors (theme_dict h)) "error_text";
  let default_error_color := Hex2rgb err_hex in
  if String.eqb type_text "default" then
    emit (SetColor default_error_color)
  else if String.eqb type_text "default_text" then
    hex ← getitem (theme_colors (theme_dict h)) "default_text";
    emit (SetColor (Hex2rgb hex))
  else
    (* the local [thcolor] is bound only on the three elif branches *)
    let thcolor : option string :=
      if String.eqb type_text "filename" then Some "default"
      else if String.eqb type_text "lineno" then Some "number"
      else if String.eqb type_text "funcname" then Some "function"
      else None in
    scopes ← match theme_scopes (theme_dict h) with
             | Some s => mret s
             | None => raise (KeyError "scopes")
             end;
    name ← match thcolor with
           | Some n => mret n
           | None => raise (UnboundLocalError "thcolor")
           end;
    scope ← getitem scopes name;
    hex ← getitem scope "color";
    emit (SetColor (MeanRound2 (Hex2rgb hex) default_error_color)).

(** *** Path shortening *)

(** The [for prefix in REMOVE_PREFIXES] loop of [write_filename]: the
    first prefix the path starts with is cut off, then the loop breaks. *)
Fixpoint short_path (path : pystr) (prefixes : list pystr) : pystr :=
  match prefixes with
  | [] => path
  | prefix :: rest =>
      if startswith path prefix then skipn (length prefix) path
      else short_path path rest
  end.

Definition is_marker (path : pystr) : bool :=
  startswith path (u "<") && endswith path (u ">").

Definition editor_url (h : host) (path : pystr) (lineno : Z) : pystr :=
  (if executable_is_Pythonista3 h then u "pythonista3://" else u "pythonista://")
  ++ replace_space
       (u "?exec=import editor;%20editor.open_file('" ++ realpath h path
        ++ u "', new_tab %3D True); editor.annotate_line(" ++ str_of_int lineno
        ++ u ")").

(** The error of a call [write_filename(path)], which lacks [lineno]. *)
Definition missing_lineno : pyerr :=
  TypeError "write_filename() missing 1 required positional argument: 'lineno'".

(** [write_filename(path, lineno)].  Both parameters are required; a call
    that passes only [path] is [lineno = None] here and raises the
    [TypeError] of the call before the body runs. *)
Definition write_filename (h : host) (path : pystr) (lineno : option Z) : M unit :=
  match lineno with
  | None =>
      raise missing_lineno
  | Some lineno =>
      if is_marker path then print_noend path
      else emit (WriteLink (short_path path (REMOVE_PREFIXES h))
                           (editor_url h path lineno))
  end.

(** The text [write_filename] shows for [path]. *)
Definition displayed (h : host) (path : pystr) : pystr :=
  if is_marker path then path else short_path path (REMOVE_PREFIXES h).

(** ** The display hook *)

(** A value handed to the display hook: [None], or an object with its
    identity and what [repr] does on it. *)
Inductive pyval : Type :=
| PyNone
| PyObj (id : N) (repr_outcome : result pystr).

Definition repr (obj : pyval) : M pystr :=
  match obj with
  | PyNone => mret (u "None")
  | PyObj _ r => mkM [] r
  end.

(** The two attributes the hook keeps on the [builtins] module; [None]
    is an attribute that does not exist. *)
Record builtins : Type := {
  Out : option (list pyval);
  underscore : option pyval         (* builtins._ *)
}.

(** Code that also reads and writes [builtins]. *)
Record SM (A : Type) : Type := mkSM { runSM : builtins -> builtins * M A }.
Arguments mkSM {A} runSM.
Arguments runSM {A} s b.

#[global] Instance SM_ret : MRet SM := fun A a => mkSM (fun b => (b, mret a)).

#[global] Instance SM_bind : MBind SM := fun A B f m =>
  mkSM (fun b =>
    let (b1, m1) := runSM m b in
    match outcome m1 with
    | Ok a =>
        let (b2, m2) := runSM (f a) b1 in
        (b2, mkM (trace m1 ++ trace m2) (outcome m2))
    | Raise err => (b1, mkM (trace m1) (Raise err))
    end).

Definition lift {A} (m : M A) : SM A := mkSM (fun b => (b, m)).

(** [try: builtins.Out except AttributeError: builtins.Out = []] *)
Definition ensure_Out : SM unit :=
  mkSM (fun b =>
    match Out b with
    | Some _ => (b, mret tt)
    | None => ({| Out := Some []; underscore := underscore b |}, mret tt)
    end).

(** [builtins._ = obj] *)
Definition set_underscore (obj : pyval) : SM unit :=
  mkSM (fun b => ({| Out := Out b; underscore := Some obj |}, mret tt)).

(** [builtins.Out.append(obj)] *)
Definition Out_append (obj : pyval) : SM unit :=
  mkSM (fun b =>
    match Out b with
    | Some out => ({| Out := Some (out ++ [obj]); underscore := underscore b |}, mret tt)
    | None => (b, raise (AttributeError "Out"))
    end).

(** [len(builtins.Out)] *)
Definition len_Out : SM Z :=
  mkSM (fun b =>
    match Out b with
    | Some out => (b, mret (Z.of_nat (length out)))
    | None => (b, raise (AttributeError "Out"))
    end).

Definition displayhook (h : host) (obj : pyval) : SM unit :=
  match obj with
  | PyNone => mret tt
  | PyObj _ _ =>
      ensure_Out;;
      set_underscore obj;;
      Out_append obj;;
      lift (emit (SetColor (RGB 0 (1#2) 0)));;
      n ← len_Out;
      lift (print_noend (u "Out[" ++ str_of_int (n - 1) ++ u "]"));;
      lift (set_color h "default_text");;
      lift (print_noend (u " = "));;
      hex ← lift (getitem (theme_colors (theme_dict h)) "text_selection_tint");
      lift (emit (SetColor (Hex2rgb hex)));;
      r ← lift (repr obj);
      lift (print r);;
      lift (set_color h "default_text")
  end.

(** The interpreter calls the hook once per evaluated expression and goes
    on after a call that raised: the state after the whole sequence, and
    what each call printed and returned. *)
Fixpoint display_all (h : host) (objs : list pyval) (b : builtins)
  : builtins * list (M unit) :=
  match objs with
  | [] => (b, [])
  | obj :: rest =>
      let (b1, m) := runSM (displayhook h obj) b in
      let (b2, ms) := display_all h rest b1 in
      (b2, m :: ms)
  end.

(** ** Exceptions *)

(** The source text [traceback.extract_tb] found for a frame: a [str], or
    [bytes] on Python 2. *)
Inductive srctext : Type :=
| StrText (s : pystr)
| BytesText (b : list Byte.byte).

(** One entry of [traceback.extract_tb]. *)
Record frame : Type := {
  filename : pystr;
  lineno : Z;
  funcname : pystr;
  text : option srctext
}.

(** The extra attributes of a [SyntaxError] value. *)
Record syntax_error : Type := {
  se_filename : pystr;
  se_lineno : option Z;
  se_offset : option Z;
  se_text : option srctext;
  se_msg : option pystr
}.

(** An exception value with its class and traceback.  [exc_str] is what
    [str(exc_value)] does; [syntax] is set when the class derives from
    [SyntaxError]. *)
Inductive exn : Type := Exn {
  exc_module : pystr;               (* exc_type.__module__ *)
  exc_qualname : pystr;             (* exc_type.__qualname__ or __name__ *)
  syntax : option syntax_error;
  exc_str : result pystr;
  exc_traceback : list frame;       (* traceback.extract_tb(exc_traceback) *)
  cause : option exn;               (* __cause__ *)
  context : option exn;             (* __context__ *)
  suppress_context : bool           (* __suppress_context__ *)
}.

(** [if isinstance(text, bytes): text = text.decode(u"utf-8", u"replace")] *)
Definition decoded (h : host) (t : srctext) : pystr :=
  match t with
  | StrText s => s
  | BytesText b => decode_utf8 h b
  end.

Definition unavailable : pystr := u "# Source code unavailable".

(** [text or u"# Source code unavailable"], after decoding. *)
Definition text_or_unavailable (h : host) (t : option srctext) : pystr :=
  match t with
  | None => unavailable
  | Some t =>
      match decoded h t with
      | [] => unavailable
      | s => s
      end
  end.

(** The body of the [for ... in traceback.extract_tb(...)] loop. *)
Definition render_frame (h : host) (f : frame) : M unit :=
  set_color h "default";;
  print_noend (TAB ++ u "File ");;
  set_color h "filename";;
  write_filename h (filename f) (Some (lineno f));;
  set_color h "default";;
  print_noend (u ", line ");;
  set_color h "lineno";;
  print_noend (str_of_int (lineno f));;
  set_color h "default";;
  print_noend (u ", in ");;
  set_color h "funcname";;
  print_noend (funcname f);;
  set_color h "default";;
  print (u ":");;
  set_color h "default";;
  print (TAB ++ TAB ++ text_or_unavailable h (text f));;
  print_newline.

Definition error_red : color := RGB (3#4) 0 0.

(** [print(x)] of an [int] or [None]. *)
Definition str_of_optint (n : option Z) : pystr :=
  match n with
  | Some n => str_of_int n
  | None => u "None"
  end.

(** The [if issubclass(exc_type, SyntaxError)] block. *)
Definition render_syntax_error (h : host) (se : syntax_error) : M unit :=
  set_color h "default";;
  print_noend (TAB ++ u "File ");;
  set_color h "filename";;
  write_filename h (se_filename se) None;;
  set_color h "default";;
  print_noend (u ", line ");;
  set_color h "lineno";;
  print_noend (str_of_optint (se_lineno se));;
  set_color h "default";;
  print (u ":");;
  match se_text se with
  | None =>
      set_color h "default";;
      print (TAB ++ TAB ++ unavailable)
  | Some t =>
      let etext := decoded h t in
      set_color h "default";;
      print_noend (TAB ++ TAB ++ slice_to etext (se_offset se));;
      emit (SetColor error_red);;
      print (COMBINING_LOW_LINE ++ rstrip (slice_from etext (se_offset se)))
  end.

Definition _excepthook (h : host) (e : exn) : M unit :=
  set_color h "default";;
  print (u "Traceback (most recent call last):");;
  for_each (exc_traceback e) (render_frame h);;
  match syntax e with
  | Some se => render_syntax_error h se
  | None => mret tt
  end;;
  set_color h "filename";;
  print_noend (exc_module e);;
  set_color h "default";;
  print_noend (u ".");;
  set_color h "funcname";;
  print_noend (exc_qualname e);;
  msg ← match syntax e with
        | Some se => mret (default [] (se_msg se))
        | None => mkM [] (exc_str e)
        end;
  match msg with
  | [] => mret tt
  | _ =>
      set_color h "default";;
      print_noend (u ": ");;
      print_noend msg
  end;;
  print_newline.

Definition cause_separator : list event :=
  [ SetColor error_red;
    Print NL;
    Print (u "The above exception was the direct cause of the following exception:" ++ NL);
    Print NL ].

Definition context_separator : list event :=
  [ SetColor error_red;
    Print NL;
    Print (u "During handling of the above exception, another exception occurred:" ++ NL);
    Print NL ].

(** The installed hook.  [exc_type] and [exc_traceback] are those of the
    value, as in the recursive calls. *)
Fixpoint excepthook (h : host) (e : exn) : M unit :=
  try_finally
    (try_except_Exception
       (match cause e with
        | Some c =>
            excepthook h c;;
            mkM cause_separator (Ok tt)
        | None =>
            match context e with
            | Some c =>
                if negb (suppress_context e) then
                  excepthook h c;;
                  mkM context_separator (Ok tt)
                else mret tt
            | None => mret tt
            end
        end;;
        _excepthook h e)
       (fun err => emit (PrintExc err)))
    (set_color h "default_text").

(** [try: body except Exception: traceback.print_exc()
     finally: set_color("default_text")], the frame of [excepthook]. *)
Definition guarded (h : host) (body : M unit) : M unit :=
  try_finally
    (try_except_Exception body (fun err => emit (PrintExc err)))
    (set_color h "default_text").

(** The statements of the [try] block of [excepthook] that come before
    the call of [_excepthook]. *)
Definition chain_prefix (h : host) (e : exn) : M unit :=
  match cause e with
  | Some c => excepthook h c;; mkM cause_separator (Ok tt)
  | None =>
      match context e with
      | Some c =>
          if negb (suppress_context e) then
            excepthook h c;; mkM context_separator (Ok tt)
          else mret tt
      | None => mret tt
      end
  end.

(** ** Notions used in the statements *)


(** A computation that can only fail with an error derived from
    [Exception]. *)
Definition catchable {A} (m : M A) : Prop :=
  forall err, outcome m = Raise err -> is_Exception err = true.

(** The history as [Out[i]] reads it: empty while [Out] does not exist. *)
Definition history (b : builtins) : list pyval := default [] (Out b).

(** What [displayhook] prints for [obj] once it has been stored and
    [len(builtins.Out)] is [n]. *)
Definition display_result (h : host) (obj : pyval) (n : Z) : M unit :=
  emit (SetColor (RGB 0 (1#2) 0));;
  print_noend (u "Out[" ++ str_of_int (n - 1) ++ u "]");;
  set_color h "default_text";;
  print_noend (u " = ");;
  hex ← getitem (theme_colors (theme_dict h)) "text_selection_tint";
  emit (SetColor (Hex2rgb hex));;
  r ← repr obj;
  print r;;
  set_color h "default_text".

(** [builtins] after a non-[None] object was displayed. *)
Definition recorded (obj : pyval) (b : builtins) : builtins :=
  {| Out := Some (history b ++ [obj]); underscore := Some obj |}.

(** No configured prefix starts [path]. *)
Definition no_prefix_matches (h : host) (path : pystr) : bool :=
  forallb (fun prefix => negb (startswith path prefix)) (REMOVE_PREFIXES h).

(** ** Sample hosts and values, used to run the hooks on concrete inputs *)

Definition sample_theme : theme := {|
  theme_colors :=
    {[ "error_text" := "#ff0000"; "default_text" := "#000000";
       "text_selection_tint" := "#0000ff" ]};
  theme_scopes :=
    Some {[ "default" := {[ "color" := "#111111" ]};
            "number" := {[ "color" := "#222222" ]};
            "function" := {[ "color" := "#333333" ]} ]}
|}%string.

(** The sample decoder is exact on ASCII bytes, which is all the samples
    hold; any other byte is shown as U+FFFD. *)
Definition sample_host : host := {|
  theme_dict := sample_theme;
  REMOVE_PREFIXES := [u "/h/"; u "/app/"];
  executable_is_Pythonista3 := true;
  realpath := fun p => p;
  decode_utf8 :=
    List.map (fun x => if (Byte.to_N x <? 128)%N then Byte.to_N x else 65533%N)
|}.

(** [ValueError("bad")] raised at line 3 of a user script. *)
Definition value_error : exn := {|
  exc_module := u "builtins"; exc_qualname := u "ValueError";
  syntax := None; exc_str := Ok (u "bad");
  exc_traceback :=
    [ {| filename := u "/h/Documents/a.py"; lineno := 3;
         funcname := u "<module>"; text := Some (StrText (u "raise ValueError('bad')")) |} ];
  cause := None; context := None; suppress_context := false
|}.

(** [raise RuntimeError("worse") from err], [err] being [value_error]. *)
Definition runtime_error_from_value_error : exn := {|
  exc_module := u "builtins"; exc_qualname := u "RuntimeError";
  syntax := None; exc_str := Ok (u "worse");
  exc_traceback :=
    [ {| filename := u "<stdin>"; lineno := 1;
         funcname := u "<module>"; text := None |} ];
  cause := Some value_error; context := Some value_error;
  suppress_context := true
|}.

(** An exception of a class whose [__str__] raises [KeyboardInterrupt],
    which derives from [BaseException] only. *)
Definition interrupting : exn := {|
  exc_module := u "__main__"; exc_qualname := u "Interrupting";
  syntax := None; exc_str := Raise (Raised false "KeyboardInterrupt");
  exc_traceback := [];
  cause := None; context := None; suppress_context := false
|}.

(** [raise RuntimeError("worse") from err], [err] being [interrupting]. *)
Definition runtime_error_from_interrupting : exn := {|
  exc_module := u "builtins"; exc_qualname := u "RuntimeError";
  syntax := None; exc_str := Ok (u "worse");
  exc_traceback := [];
  cause := Some interrupting; context := Some interrupting;
  suppress_context := true
|}.

(** A host whose theme has no entries at all. *)
Definition bare_host : host := {|
  theme_dict := {| theme_colors := ∅; theme_scopes := None |};
  REMOVE_PREFIXES := REMOVE_PREFIXES sample_host;
  executable_is_Pythonista3 := true;
  realpath := realpath sample_host;
  decode_utf8 := decode_utf8 sample_host
|}.

(** [SyntaxError("invalid syntax", ("<stdin>", 1, 5, "x = = 1\n"))], as
    raised for a line typed at the prompt. *)
Definition invalid_syntax : exn := {|
  exc_module := u "builtins"; exc_qualname := u "SyntaxError";
  syntax := Some {| se_filename := u "<stdin>"; se_lineno := Some 1;
                    se_offset := Some 5;
                    se_text := Some (StrText (u "x = = 1" ++ NL));
                    se_msg := Some (u "invalid syntax") |};
  exc_str := Ok (u "invalid syntax (<stdin>, line 1)");
  exc_traceback := [];
  cause := None; context := None; suppress_context := false
|}.

(** Results of [1 + 1], of an object whose [__repr__] raises, and of
    ['a']. *)
Definition two : pyval := PyObj 1 (Ok (u "2")).
Definition unprintable : pyval := PyObj 2 (Raise (Raised true "ValueError")).
Definition letter_a : pyval := PyObj 3 (Ok (u "'a'")).

(** [builtins] when the hooks are installed: no [Out], no [_]. *)
Definition fresh_builtins : builtins := {| Out := None; underscore := None |}.

(** ** Installation roots

    [run] computes the two prefixes once, from the home directory and
    from the path of the executable.  [basename] and [dirname] are those
    of [os.path]; [os.sep] is ["/"] on the platform of the application. *)

Definition sep : pystr := u "/".

Section Install.
Variables basename dirname : pystr -> pystr.

Definition APP_GROUP_DIR (home : pystr) : pystr :=
  (if decide (basename home = u "Pythonista3") then dirname home else home)
  ++ sep.

Definition APP_DIR (executable : pystr) : pystr :=
  u "" ++ dirname (dirname executable) ++ sep.

Definition install_prefixes (home executable : pystr) : list pystr :=
  [APP_GROUP_DIR home; APP_DIR executable].

End Install.

(** ** Further notions used in the statements *)

(** The text an output puts on the console, colours and raw tracebacks
    left aside: what [print] wrote and the visible text of the links. *)
Fixpoint printed_text (t : list event) : pystr :=
  match t with
  | [] => []
  | Print s :: t' => s ++ printed_text t'
  | WriteLink s _ :: t' => s ++ printed_text t'
  | _ :: t' => printed_text t'
  end.

(** [theme_dict["scopes"][name]["color"]], when all three lookups succeed. *)
Definition scope_color (h : host) (name : string) : option string :=
  match theme_scopes (theme_dict h) with
  | Some scopes =>
      match scopes !! name with
      | Some scope => scope !! "color"%string
      | None => None
      end
  | None => None
  end.

(** The theme has every entry the traceback colours need. *)
Definition palette_ok (h : host) : Prop :=
  is_Some (theme_colors (theme_dict h) !! "error_text"%string)
  /\ is_Some (scope_color h "default")
  /\ is_Some (scope_color h "number")
  /\ is_Some (scope_color h "function").

(** The two lines and the blank line of one frame in a traceback. *)
Definition frame_text (h : host) (f : frame) : pystr :=
  TAB ++ u "File " ++ displayed h (filename f) ++ u ", line "
  ++ str_of_int (lineno f) ++ u ", in " ++ funcname f ++ u ":" ++ NL
  ++ TAB ++ TAB ++ text_or_unavailable h (text f) ++ NL ++ NL.

(** The exception the hook renders first: the end of the links it
    follows, [__cause__] before an unsuppressed [__context__]. *)
Fixpoint root (e : exn) : exn :=
  match cause e with
  | Some c => root c
  | None =>
      match context e with
      | Some c => if negb (suppress_context e) then root c else e
      | None => e
      end
  end.

(** [obj is not None] *)
Definition is_not_None (obj : pyval) : bool :=
  match obj with
  | PyNone => false
  | PyObj _ _ => true
  end.

(** The names [set_color] knows. *)
Definition known_type_texts : list string :=
  ["default"; "default_text"; "filename"; "lineno"; "funcname"]%string.

(** [raise RuntimeError("worse")] while [value_error] was being handled. *)
Definition runtime_error_during_value_error : exn := {|
  exc_module := u "builtins"; exc_qualname := u "RuntimeError";
  syntax := None; exc_str := Ok (u "worse");
  exc_traceback :=
    [ {| filename := u "<stdin>"; lineno := 1;
         funcname := u "<module>"; text := None |} ];
  cause := None; context := Some value_error;
  suppress_context := false
|}.

(** The exception is no syntax error and its [str] returns, and so for
    every exception on the links the hook follows from it. *)
Fixpoint plain (e : exn) : bool :=
  match syntax e with Some _ => false | None => true end
  && match exc_str e with Ok _ => true | Raise _ => false end
  && match cause e with
     | Some c => plain c
     | None =>
         match context e with
         | Some c => if negb (suppress_context e) then plain c else true
         | None => true
         end
     end.

(** The standard traceback of one exception: header, frames, summary. *)
Definition traceback_of (h : host) (e : exn) : pystr :=
  u "Traceback (most recent call last):" ++ NL
  ++ concat (List.map (frame_text h) (exc_traceback e))
  ++ exc_module e ++ u "." ++ exc_qualname e
  ++ match exc_str e with
     | Ok (c :: msg) => u ": " ++ c :: msg
     | _ => []
     end
  ++ NL.

(** The standard report of a chain of exceptions, the first one raised
    on top, each later one introduced by the sentence of its link. *)
Fixpoint chain_text (h : host) (e : exn) : pystr :=
  match cause e with
  | Some c =>
      chain_text h c ++ NL
      ++ u "The above exception was the direct cause of the following exception:"
      ++ NL ++ NL
  | None =>
      match context e with
      | Some c =>
          if negb (suppress_context e) then
            chain_text h c ++ NL
            ++ u "During handling of the above exception, another exception occurred:"
            ++ NL ++ NL
          else []
      | None => []
      end
  end
  ++ traceback_of h e.

(** ** Channel values

    A channel is a Python [float], a binary64 number.  The sum and the
    quotient of [set_color] are the operations of the processor; [round]
    decides on the exact value of its argument. *)

Abbreviation float := PrimFloat.float.

Definition float_of_Z (n : Z) : float :=
  if n <? 0 then PrimFloat.opp (PrimFloat.of_uint63 (Uint63.of_Z (- n)))
  else PrimFloat.of_uint63 (Uint63.of_Z n).

(** The binary64 number nearest to [n / 100]: both operands are exact and
    the division rounds once. *)
Definition hundredth (n : Z) : float :=
  PrimFloat.div (float_of_Z n) (float_of_Z 100).

(** Sign, mantissa and exponent of a finite number, which is exactly
    [mantissa * 2 ^ exponent] up to its sign; [None] for an infinity or a
    NaN. *)
Definition decompose (x : float) : option (bool * Z * Z) :=
  match FloatOps.Prim2SF x with
  | SpecFloat.S754_zero s => Some (s, 0, 0)
  | SpecFloat.S754_finite s m e => Some (s, Z.pos m, e)
  | _ => None
  end.

(** The integer nearest to [num / den], for [0 <= num] and [0 < den].  A
    tie goes to the even neighbour on Python 3 and away from zero on
    Python 2. *)
Definition round_tie (half_even : bool) (num den : Z) : Z :=
  let q := num / den in
  let r := num mod den in
  if 2 * r <? den then q
  else if den <? 2 * r then q + 1
  else if half_even then (if Z.even q then q else q + 1)
  else q + 1.

(** The integer nearest to [100 * m * 2 ^ e], for [0 <= m]. *)
Definition scaled (half_even : bool) (m e : Z) : Z :=
  if 0 <=? e then 100 * m * 2 ^ e
  else round_tie half_even (100 * m) (2 ^ (- e)).

(** [round(x, 2)]: the binary64 number nearest to the two-digit decimal
    nearest to the exact value of [x].  An infinity or a NaN is returned
    as it is; from [2 ^ 53 / 100] on the numbers lie more than [0.01]
    apart and [x] is its own result. *)
Definition round2 (half_even : bool) (x : float) : float :=
  match decompose x with
  | None => x
  | Some (s, m, e) =>
      let n := scaled half_even m e in
      if 2 ^ 53 <=? n then x
      else if s then PrimFloat.opp (hundredth n) else hundredth n
  end.

(** [hex2rgb(hexcolor)].  [components hexcolor] stands for the list
    [[float(str(l)) for l in
      UIColor.colorWithHexString_(hexcolor).arrayFromRGBAComponents()]],
    the part that runs outside Python. *)
Definition hex2rgb (half_even : bool) (components : string -> list float)
    (hexcolor : string) : list float :=
  firstn 3 (List.map (round2 half_even) (components hexcolor)).

(** [[round((dtrgb[i] + default_error_color[i]) / 2, 2) for i in range(3)]];
    [None] is the [IndexError] of a list with fewer than three entries. *)
Definition mean_color (half_even : bool) (dtrgb default_error_color : list float)
  : option (list float) :=
  mapM (fun i : nat =>
          match dtrgb !! i, default_error_color !! i with
          | Some a, Some b =>
              Some (round2 half_even
                      (PrimFloat.div (PrimFloat.add a b) (float_of_Z 2)))
          | _, _ => None
          end)
       [0; 1; 2]%nat.

(** A literal channel such as [0.5] or [0.75]. *)
Definition float_of_Q (q : Q) : float :=
  PrimFloat.div (float_of_Z (Qnum q)) (float_of_Z (Z.pos (Qden q))).

(** The channels [console.set_color] receives for a colour. *)
Fixpoint color_value (half_even : bool) (components : string -> list float)
    (c : color) : option (list float) :=
  match c with
  | RGB r g b => Some [float_of_Q r; float_of_Q g; float_of_Q b]
  | Hex2rgb hexcolor => Some (hex2rgb half_even components hexcolor)
  | MeanRound2 c1 c2 =>
      match color_value half_even components c1,
            color_value half_even components c2 with
      | Some dtrgb, Some default_error_color =>
          mean_color half_even dtrgb default_error_color
      | _, _ => None
      end
  end.

(** The channel as the specification words it: the arithmetic mean of
    the two channels, computed exactly, rounded to two decimal digits. *)
Definition rounded_exact_mean (half_even : bool) (a b : float) : option float :=
  match decompose a, decompose b with
  | Some (sa, ma, ea), Some (sb, mb, eb) =>
      let e := Z.min ea eb in
      (* a + b is exactly total * 2 ^ e *)
      let total := (if sa then - ma else ma) * 2 ^ (ea - e)
                   + (if sb then - mb else mb) * 2 ^ (eb - e) in
      let n := scaled half_even (Z.abs total) (e - 1) in
      Some (if total <? 0 then PrimFloat.opp (hundredth n) else hundredth n)
  | _, _ => None
  end.

(** The value of a hexadecimal digit. *)
Definition hex_digit (c : ascii) : Z :=
  let n := Z.of_N (N_of_ascii c) in
  if (48 <=? n) && (n <=? 57) then n - 48
  else if (97 <=? n) && (n <=? 102) then n - 87
  else if (65 <=? n) && (n <=? 70) then n - 55
  else 0.

(** The components of an opaque colour written ["#rrggbb"], each byte
    divided by 255: what the sample host takes [UIColor] to return. *)
Definition sample_components (hexcolor : string) : list float :=
  match list_ascii_of_string hexcolor with
  | [_; r1; r0; g1; g0; b1; b0] =>
      List.map (fun k => PrimFloat.div (float_of_Z k) (float_of_Z 255))
               [16 * hex_digit r1 + hex_digit r0;
                16 * hex_digit g1 + hex_digit g0;
                16 * hex_digit b1 + hex_digit b0]
      ++ [float_of_Z 1]
  | _ => []
  end.

(** The names of the blended tokens with the scope each one reads. *)
Definition blended_tokens : list (string * string) :=
  [("filename", "default"); ("lineno", "number"); ("funcname", "function")]%string.

(** ** The hook under the recursion limit *)

(** [excepthook] with a bound on the nesting of its own calls.  The
    interpreter stops a recursion that gets too deep with a
    [RecursionError], raised wherever the stack happens to be full; what
    the hook does from there on is not modelled and is [None] here.
    [depth] is the number of nested calls of the hook the limit leaves
    room for.  A chain with a cycle, as after [raise e from e], has no
    finite unfolding: the hook reaches the bound on it whatever the bound
    is. *)
Fixpoint excepthook_within (depth : nat) (h : host) (e : exn) : option (M unit) :=
  match depth with
  | O => None
  | S depth' =>
      match cause e with
      | Some c =>
          match excepthook_within depth' h c with
          | Some inner =>
              Some (guarded h ((inner;; mkM cause_separator (Ok tt));;
                               _excepthook h e))
          | None => None
          end
      | None =>
          match context e with
          | Some c =>
              if negb (suppress_context e) then
                match excepthook_within depth' h c with
                | Some inner =>
                    Some (guarded h ((inner;; mkM context_separator (Ok tt));;
                                     _excepthook h e))
                | None => None
                end
              else Some (guarded h (mret tt;; _excepthook h e))
          | None => Some (guarded h (mret tt;; _excepthook h e))
          end
      end
  end.

(** The number of nested calls the hook needs for an exception: one for
    itself and those for the link it follows. *)
Fixpoint chain_length (e : exn) : nat :=
  S match cause e with
    | Some c => chain_length c
    | None =>
        match context e with
        | Some c => if negb (suppress_context e) then chain_length c else O
        | None => O
        end
    end.

(** The errors whose raw traceback an output shows. *)
Fixpoint raw_tracebacks (t : list event) : list pyerr :=
  match t with
  | [] => []
  | PrintExc err :: t' => err :: raw_tracebacks t'
  | _ :: t' => raw_tracebacks t'
  end.

(** A computation that prints no raw traceback. *)
Definition quiet {A} (m : M A) : Prop := raw_tracebacks (trace m) = [].

(** * Properties *)

(** ** The monad *)

Lemma bind_Ok {A B} (m : M A) (f : A -> M B) a :
  outcome m = Ok a ->
  m ≫= f = mkM (trace m ++ trace (f a)) (outcome (f a)).
Proof. intros Hm. unfold mbind, M_bind. now rewrite Hm. Qed.

Lemma bind_Raise {A B} (m : M A) (f : A -> M B) err :
  outcome m = Raise err ->
  m ≫= f = mkM (trace m) (Raise err).
Proof. intros Hm. unfold mbind, M_bind. now rewrite Hm. Qed.

Lemma bind_Ok_inv {A B} (m : M A) (f : A -> M B) b :
  outcome (m ≫= f) = Ok b ->
  exists a, outcome m = Ok a /\ outcome (f a) = Ok b
            /\ trace (m ≫= f) = trace m ++ trace (f a).
Proof.
  destruct (outcome m) as [a|err] eqn:Hm.
  - rewrite (bind_Ok _ _ _ Hm). simpl. intros Hf. now exists a.
  - rewrite (bind_Raise _ _ _ Hm). simpl. discriminate.
Qed.

Lemma M_eta {A} (m : M A) : mkM (trace m) (outcome m) = m.
Proof. now destruct m. Qed.

(** ** The exception hook, unfolded once *)

Lemma excepthook_eq h e :
  excepthook h e = guarded h (chain_prefix h e;; _excepthook h e).
Proof. destruct e; reflexivity. Qed.

(** ** Display hook: the sentinel *)

(** C8.  Called on [None], the display hook prints nothing, raises
    nothing and leaves [builtins] as it found it: [Out] gets no new
    entry (it is not even created) and [_] keeps its value. *)
Theorem displayhook_None_noop (h : host) (b : builtins) :
  runSM (displayhook h PyNone) b = (b, mkM [] (Ok tt)).
Proof. reflexivity. Qed.

(** ** Frame rendering: source text that is empty *)

Lemma set_color_cases h type_text :
  (exists err, set_color h type_text = mkM [] (Raise err))
  \/ (exists c, set_color h type_text = mkM [SetColor c] (Ok tt)).
Proof.
  unfold set_color, getitem.
  destruct (theme_colors (theme_dict h) !! "error_text"%string) as [he|];
    [|left; now eexists].
  cbn.
  destruct (String.eqb type_text "default"); [right; now eexists|].
  destruct (String.eqb type_text "default_text").
  { destruct (theme_colors (theme_dict h) !! "default_text"%string);
      [right|left]; now eexists. }
  destruct (theme_scopes (theme_dict h)) as [sc|]; [|left; now eexists].
  cbn.
  destruct (if String.eqb type_text "filename" then _ else _) as [name|];
    [|left; now eexists].
  cbn.
  destruct (sc !! name) as [scope|]; [|left; now eexists].
  cbn.
  destruct (scope !! "color"%string); [right|left]; now eexists.
Qed.

(** Peel the first statement off a sequence that is known to succeed. *)
Ltac step_Ok H :=
  let a := fresh "a" in
  let H1 := fresh "Hstep" in
  let H2 := fresh "Hrest" in
  let Ht := fresh "Htrace" in
  apply bind_Ok_inv in H; destruct H as (a & H1 & H2 & Ht);
  rewrite Ht; clear Ht; clear H1; rename H2 into H.

(** C9.  A frame whose source text is the empty string is rendered
    exactly like a frame with no source text, and whenever the frame is
    rendered without error the line printed for its source is the
    placeholder ["# Source code unavailable"]; the placeholder stands in
    for every falsy text, [None] or empty. *)
Theorem empty_source_text_is_unavailable
    (h : host) (fn : pystr) (ln : Z) (fu : pystr) :
  let f_empty := {| filename := fn; lineno := ln; funcname := fu;
                    text := Some (StrText []) |} in
  let f_none := {| filename := fn; lineno := ln; funcname := fu;
                   text := None |} in
  render_frame h f_empty = render_frame h f_none
  /\ text_or_unavailable h (text f_empty) = unavailable
  /\ text_or_unavailable h (text f_none) = unavailable
  /\ (outcome (render_frame h f_empty) = Ok tt ->
      exists before,
        trace (render_frame h f_empty)
        = before ++ [Print (TAB ++ TAB ++ unavailable ++ NL); Print NL]).
Proof.
  intros f_empty f_none. repeat split.
  intros Hok. unfold render_frame in *.
  do 15 step_Ok Hok.
  exists (trace (set_color h "default") ++ trace (print_noend (TAB ++ u "File ")) ++
          trace (set_color h "filename") ++
          trace (write_filename h (filename f_empty) (Some (lineno f_empty))) ++
          trace (set_color h "default") ++ trace (print_noend (u ", line ")) ++
          trace (set_color h "lineno") ++
          trace (print_noend (str_of_int (lineno f_empty))) ++
          trace (set_color h "default") ++ trace (print_noend (u ", in ")) ++
          trace (set_color h "funcname") ++ trace (print_noend (funcname f_empty)) ++
          trace (set_color h "default") ++ trace (print (u ":")) ++
          trace (set_color h "default")).
  rewrite <- !app_assoc. repeat f_equal.
Qed.

Lemma empty_source_text_is_unavailable_witness :
  exists before,
    trace (render_frame sample_host
             {| filename := u "/h/a.py"; lineno := 3; funcname := u "f";
                text := Some (StrText []) |})
    = before ++ [Print (TAB ++ TAB ++ unavailable ++ NL); Print NL].
Proof.
  apply (empty_source_text_is_unavailable sample_host (u "/h/a.py") 3 (u "f")).
  vm_compute. reflexivity.
Defined.

(** ** The exception hook: its [try]/[except]/[finally] frame *)

Ltac guarded_cases h :=
  unfold guarded, try_finally, try_except_Exception; cbn;
  repeat match goal with
    | |- context [is_Exception ?err] => destruct (is_Exception err); cbn
    end;
  destruct (set_color h "default_text") as [tf [[]|errf]]; cbn;
  rewrite <- ?app_assoc; try reflexivity.

Lemma guarded_trace h body :
  trace (guarded h body)
  = trace body ++ trace (guarded h (mkM [] (outcome body))).
Proof. destruct body as [tb [[]|err]]; guarded_cases h. Qed.

Lemma guarded_bind_Ok h (m body : M unit) :
  outcome m = Ok tt ->
  guarded h (m;; body)
  = mkM (trace m ++ trace (guarded h body)) (outcome (guarded h body)).
Proof.
  intros Hm. rewrite (bind_Ok _ _ _ Hm).
  destruct body as [tb [[]|err]]; guarded_cases h.
Qed.

Lemma guarded_bind_Raise h (m body : M unit) err :
  outcome m = Raise err ->
  guarded h (m;; body)
  = mkM (trace m ++ trace (guarded h (raise err)))
        (outcome (guarded h (raise err))).
Proof.
  intros Hm. rewrite (bind_Raise _ _ _ Hm). guarded_cases h.
Qed.

(** ** Chained exceptions *)

(** C2.  With no [__cause__] and [__suppress_context__] true, the hook
    runs no recursive call and prints no separator: it is the guarded
    rendering of the exception alone, whatever [__context__] holds.  With
    a [__cause__], neither [__context__] nor [__suppress_context__] has
    any influence on what the hook does. *)
Theorem context_not_traversed
    (h : host) (m q : pystr) (s : option syntax_error) (st : result pystr)
    (tb : list frame) (c : exn) (cx cx' : option exn) (su su' : bool) :
  excepthook h (Exn m q s st tb None cx true)
  = guarded h (_excepthook h (Exn m q s st tb None cx true))
  /\ excepthook h (Exn m q s st tb None cx true)
     = excepthook h (Exn m q s st tb None None true)
  /\ excepthook h (Exn m q s st tb (Some c) cx su)
     = excepthook h (Exn m q s st tb (Some c) cx' su').
Proof.
  repeat split.
  - destruct cx; cbn [excepthook cause context suppress_context negb];
      unfold guarded; f_equal; f_equal.
    all: unfold mbind, M_bind, mret, M_ret; cbn; apply M_eta.
  - destruct cx; reflexivity.
Qed.

Lemma set_color_default_text h he hd :
  theme_colors (theme_dict h) !! "error_text"%string = Some he ->
  theme_colors (theme_dict h) !! "default_text"%string = Some hd ->
  set_color h "default_text" = mkM [SetColor (Hex2rgb hd)] (Ok tt).
Proof.
  intros He Hd. unfold set_color, getitem. rewrite He, Hd. reflexivity.
Qed.

(** C1 (amended).  For an exception whose [__cause__] is set, whatever
    the hook prints starts with everything the recursive call on the
    cause prints.  When that call returns normally, the separator block
    (red, blank line, "The above exception was the direct cause of the
    following exception:", blank line) comes next and the traceback of
    the current exception only after it, followed by what the handler
    and the [finally] clause print.  When that call raises, nothing of
    the current exception is printed at all. *)
Theorem cause_chain_printed_first (h : host) (e c : exn) :
  cause e = Some c ->
  (exists rest, trace (excepthook h e) = trace (excepthook h c) ++ rest)
  /\ (outcome (excepthook h c) = Ok tt ->
      trace (excepthook h e)
      = trace (excepthook h c) ++ cause_separator ++ trace (_excepthook h e)
        ++ trace (guarded h (mkM [] (outcome (_excepthook h e)))))
  /\ (forall err, outcome (excepthook h c) = Raise err ->
      trace (excepthook h e)
      = trace (excepthook h c) ++ trace (guarded h (raise err))).
Proof.
  intros Hc.
  assert (Hok : outcome (excepthook h c) = Ok tt ->
      trace (excepthook h e)
      = trace (excepthook h c) ++ cause_separator ++ trace (_excepthook h e)
        ++ trace (guarded h (mkM [] (outcome (_excepthook h e))))).
  { intros Hret. rewrite (excepthook_eq h e). unfold chain_prefix. rewrite Hc.
    rewrite guarded_bind_Ok by (rewrite (bind_Ok _ _ _ Hret); reflexivity).
    cbn [trace]. rewrite (bind_Ok _ _ _ Hret). cbn [trace].
    rewrite guarded_trace. now rewrite <- !app_assoc. }
  assert (Hraise : forall err, outcome (excepthook h c) = Raise err ->
      trace (excepthook h e)
      = trace (excepthook h c) ++ trace (guarded h (raise err))).
  { intros err Hret. rewrite (excepthook_eq h e). unfold chain_prefix. rewrite Hc.
    rewrite (guarded_bind_Raise _ _ _ err)
      by (rewrite (bind_Raise _ _ _ Hret); reflexivity).
    cbn [trace]. now rewrite (bind_Raise _ _ _ Hret). }
  split; [|split]; [|exact Hok|exact Hraise].
  destruct (outcome (excepthook h c)) as [[]|err] eqn:Hret.
  - rewrite Hok by reflexivity. now eexists.
  - rewrite (Hraise err) by reflexivity. now eexists.
Qed.

Lemma cause_chain_printed_first_witness :
  trace (excepthook sample_host runtime_error_from_value_error)
  = trace (excepthook sample_host value_error) ++ cause_separator
    ++ trace (_excepthook sample_host runtime_error_from_value_error)
    ++ trace (guarded sample_host
                (mkM [] (outcome (_excepthook sample_host
                                    runtime_error_from_value_error)))).
Proof.
  apply (cause_chain_printed_first sample_host
           runtime_error_from_value_error value_error).
  - reflexivity.
  - vm_compute. reflexivity.
Defined.

(** C1 fails as stated: the cause's [__str__] raises [KeyboardInterrupt],
    the recursive call lets it through, and the outer call prints neither
    the separator sentence nor any part of the current traceback. *)
Lemma cause_separator_not_always_printed :
  cause runtime_error_from_interrupting = Some interrupting
  /\ ~ In (Print (u "The above exception was the direct cause of the following exception:" ++ NL))
          (trace (excepthook sample_host runtime_error_from_interrupting))
  /\ ~ In (Print (u "RuntimeError"))
          (trace (excepthook sample_host runtime_error_from_interrupting)).
Proof.
  split; [reflexivity|].
  split; vm_compute; intros H;
    repeat (destruct H as [H|H]; [discriminate H|]); exact H.
Qed.

(** ** Errors the formatter can raise *)

Lemma exn_chain_ind (P : exn -> Prop) :
  (forall m q s st tb ca cx su,
      match ca with Some c => P c | None => True end ->
      match cx with Some c => P c | None => True end ->
      P (Exn m q s st tb ca cx su)) ->
  forall e, P e.
Proof.
  intros H. fix IH 1. intros [m q s st tb ca cx su]. apply H.
  - destruct ca as [c|]; [apply IH | exact I].
  - destruct cx as [c|]; [apply IH | exact I].
Qed.

Lemma catchable_Ok {A} (t : list event) (a : A) : catchable (mkM t (Ok a)).
Proof. intros err H. discriminate H. Qed.

Lemma catchable_Raise {A} (t : list event) err :
  is_Exception err = true -> catchable (@mkM A t (Raise err)).
Proof. intros He err' H. cbn in H. now injection H as <-. Qed.

Lemma catchable_bind {A B} (m : M A) (f : A -> M B) :
  catchable m -> (forall a, catchable (f a)) -> catchable (m ≫= f).
Proof.
  intros Hm Hf err. destruct (outcome m) as [a|err'] eqn:Ho.
  - rewrite (bind_Ok _ _ _ Ho). cbn. apply Hf.
  - rewrite (bind_Raise _ _ _ Ho). cbn. intros [= <-]. now apply Hm.
Qed.

Lemma catchable_getitem {V} (d : gmap string V) key : catchable (getitem d key).
Proof.
  unfold getitem. destruct (d !! key); [apply catchable_Ok|now apply catchable_Raise].
Qed.

Lemma catchable_set_color h type_text : catchable (set_color h type_text).
Proof.
  unfold set_color.
  apply catchable_bind; [apply catchable_getitem|intros he].
  destruct (String.eqb type_text "default"); [apply catchable_Ok|].
  destruct (String.eqb type_text "default_text").
  { apply catchable_bind; [apply catchable_getitem|intros; apply catchable_Ok]. }
  apply catchable_bind.
  { destruct (theme_scopes (theme_dict h));
      [apply catchable_Ok|now apply catchable_Raise]. }
  intros sc. apply catchable_bind.
  { destruct (if String.eqb type_text "filename" then _ else _);
      [apply catchable_Ok|now apply catchable_Raise]. }
  intros name.
  apply catchable_bind; [apply catchable_getitem|intros scope].
  apply catchable_bind; [apply catchable_getitem|intros; apply catchable_Ok].
Qed.







(** ** The boundary of the exception hook *)

Lemma guarded_restores h he hd body :
  theme_colors (theme_dict h) !! "error_text"%string = Some he ->
  theme_colors (theme_dict h) !! "default_text"%string = Some hd ->
  guarded h body
  = match outcome body with
    | Ok _ => mkM (trace body ++ [SetColor (Hex2rgb hd)]) (Ok tt)
    | Raise err =>
        if is_Exception err
        then mkM (trace body ++ [PrintExc err; SetColor (Hex2rgb hd)]) (Ok tt)
        else mkM (trace body ++ [SetColor (Hex2rgb hd)]) (Raise err)
    end.
Proof.
  intros He Hd. unfold guarded, try_finally, try_except_Exception.
  rewrite (set_color_default_text h he hd He Hd).
  destruct body as [tb [[]|err]]; cbn; [reflexivity|].
  destruct (is_Exception err); cbn; now rewrite <- ?app_assoc.
Qed.





(** ** Syntax errors *)

Lemma bind_ext {A B} (m : M A) (f g : A -> M B) :
  (forall a, f a = g a) -> m ≫= f = m ≫= g.
Proof.
  intros H. unfold mbind, M_bind. destruct (outcome m); [now rewrite H|reflexivity].
Qed.

Lemma bind_assoc {A B C} (m : M A) (f : A -> M B) (g : B -> M C) :
  (m ≫= f) ≫= g = m ≫= (fun a => f a ≫= g).
Proof.
  unfold mbind, M_bind. destruct m as [t [a|err]]; cbn; [|reflexivity].
  destruct (f a) as [t1 [b|err]]; cbn; [|reflexivity].
  now rewrite app_assoc.
Qed.

Lemma bind_always_raises {A B} (m : M A) (f : A -> M B) :
  (forall a, exists err, outcome (f a) = Raise err) ->
  exists err, outcome (m ≫= f) = Raise err.
Proof.
  intros H. destruct (outcome m) as [a|err] eqn:Hm.
  - rewrite (bind_Ok _ _ _ Hm). apply H.
  - rewrite (bind_Raise _ _ _ Hm). now eexists.
Qed.

(** The location line of a syntax error stops at the call
    [write_filename(exc_value.filename)]. *)
Lemma render_syntax_error_eq h se :
  render_syntax_error h se
  = (set_color h "default";;
     print_noend (TAB ++ u "File ");;
     set_color h "filename";;
     raise missing_lineno).
Proof. reflexivity. Qed.

(** C4 (the code departs from it).  For every exception of a class
    derived from [SyntaxError], [_excepthook] prints the header and the
    frames, starts the extra location line with ["\tFile "], and then
    raises the [TypeError] of the call [write_filename(exc_value.filename)],
    which lacks the required argument [lineno].  It never returns
    normally, so neither the rest of the location line nor the split
    source line is printed. *)
Theorem syntax_error_rendering_raises (h : host) (e : exn) (se : syntax_error) :
  syntax e = Some se ->
  _excepthook h e
  = (set_color h "default";;
     print (u "Traceback (most recent call last):");;
     for_each (exc_traceback e) (render_frame h);;
     set_color h "default";;
     print_noend (TAB ++ u "File ");;
     set_color h "filename";;
     raise missing_lineno)
  /\ (exists err, outcome (_excepthook h e) = Raise err)
  /\ (outcome (set_color h "filename") = Ok tt ->
      outcome (for_each (exc_traceback e) (render_frame h)) = Ok tt ->
      outcome (_excepthook h e) = Raise missing_lineno).
Proof.
  intros Hs.
  assert (Heq : _excepthook h e
    = (set_color h "default";;
       print (u "Traceback (most recent call last):");;
       for_each (exc_traceback e) (render_frame h);;
       set_color h "default";;
       print_noend (TAB ++ u "File ");;
       set_color h "filename";;
       raise missing_lineno)).
  { unfold _excepthook. rewrite Hs, render_syntax_error_eq.
    do 3 (apply bind_ext; intros _).
    rewrite bind_assoc. apply bind_ext; intros _.
    rewrite bind_assoc. apply bind_ext; intros _.
    rewrite bind_assoc. apply bind_ext; intros _.
    reflexivity. }
  split; [exact Heq|]. rewrite Heq. split.
  - do 6 (apply bind_always_raises; intros _). now eexists.
  - intros Hfn Hframes.
    destruct (set_color_cases h "default") as [[err Hd]|[c Hd]].
    { (* the frames cannot have been rendered without the default colour *)
      destruct (set_color_cases h "filename") as [[err' Hf]|[c' Hf]];
        [rewrite Hf in Hfn; discriminate|].
      unfold set_color in Hd, Hf.
      destruct (getitem (theme_colors (theme_dict h)) "error_text") as [t [he|err0]];
        cbn in Hd, Hf; [discriminate Hd|discriminate Hf]. }
    rewrite Hd. cbn.
    destruct (for_each (exc_traceback e) (render_frame h)) as [tf [[]|errf]];
      [|discriminate Hframes].
    cbn. destruct (set_color h "filename") as [tn [[]|errn]];
      [|discriminate Hfn].
    reflexivity.
Qed.

Lemma syntax_error_rendering_raises_witness :
  outcome (_excepthook sample_host invalid_syntax) = Raise missing_lineno.
Proof.
  apply (syntax_error_rendering_raises sample_host invalid_syntax
           {| se_filename := u "<stdin>"; se_lineno := Some 1;
              se_offset := Some 5;
              se_text := Some (StrText (u "x = = 1" ++ NL));
              se_msg := Some (u "invalid syntax") |});
    reflexivity.
Defined.

(** The whole hook on [invalid_syntax]: the last things it does are to
    print the raw traceback of the [TypeError] and to restore the
    colour; the source line [x = = 1] is in nothing it prints. *)
Example excepthook_invalid_syntax :
  excepthook sample_host invalid_syntax
  = mkM [ SetColor (Hex2rgb "#ff0000");
          Print (u "Traceback (most recent call last):" ++ NL);
          SetColor (Hex2rgb "#ff0000");
          Print (TAB ++ u "File ");
          SetColor (MeanRound2 (Hex2rgb "#111111") (Hex2rgb "#ff0000"));
          PrintExc missing_lineno;
          SetColor (Hex2rgb "#000000") ] (Ok tt).
Proof. vm_compute. reflexivity. Qed.

(** ** The display hook *)

Lemma runSM_lift_bind {A B} (m : M A) (f : A -> SM B) (g : A -> M B) b :
  (forall a, runSM (f a) b = (b, g a)) ->
  runSM (lift m ≫= f) b = (b, m ≫= g).
Proof.
  intros H. unfold mbind at 1, SM_bind. cbn.
  unfold mbind, M_bind. destruct (outcome m) as [a|err]; [|reflexivity].
  now rewrite H.
Qed.

Lemma runSM_lift {A} (m : M A) b : runSM (lift m) b = (b, m).
Proof. reflexivity. Qed.

Lemma runSM_bind_silent {A B} (m : SM A) (f : A -> SM B) b b1 a :
  runSM m b = (b1, mkM [] (Ok a)) ->
  runSM (m ≫= f) b = runSM (f a) b1.
Proof.
  intros H. unfold mbind, SM_bind. cbn [runSM]. rewrite H. cbn.
  now destruct (runSM (f a) b1) as [b2 [t o]].
Qed.

(** The hook stores the object first and prints afterwards. *)
Lemma displayhook_eq h id r b :
  runSM (displayhook h (PyObj id r)) b
  = (recorded (PyObj id r) b,
     display_result h (PyObj id r)
       (Z.of_nat (length (history b ++ [PyObj id r])))).
Proof.
  set (obj := PyObj id r).
  assert (Hout : forall b', Out b' = Some (history b ++ [obj]) ->
    runSM (lift (emit (SetColor (RGB 0 (1 # 2) 0)));;
           n ← len_Out;
           lift (print_noend (u "Out[" ++ str_of_int (n - 1) ++ u "]"));;
           lift (set_color h "default_text");;
           lift (print_noend (u " = "));;
           hex ← lift (getitem (theme_colors (theme_dict h)) "text_selection_tint");
           lift (emit (SetColor (Hex2rgb hex)));;
           r ← lift (repr obj);
           lift (print r);;
           lift (set_color h "default_text")) b'
    = (b', display_result h obj (Z.of_nat (length (history b ++ [obj]))))).
  { intros b' Hb'. unfold display_result.
    apply runSM_lift_bind. intros _.
    unfold mbind at 1, SM_bind. cbn [runSM len_Out]. rewrite Hb'.
    cbn [outcome mret M_ret trace app].
    match goal with |- (let (_, _) := ?x in _) = _ =>
      assert (Hx : x = (b', print_noend (u "Out[" ++
          str_of_int (Z.of_nat (length (history b ++ [obj])) - 1) ++ u "]");;
          set_color h "default_text";;
          print_noend (u " = ");;
          hex ← getitem (theme_colors (theme_dict h)) "text_selection_tint";
          emit (SetColor (Hex2rgb hex));;
          r ← repr obj;
          print r;;
          set_color h "default_text")) end.
    { do 4 (apply runSM_lift_bind; intros ?).
      do 2 (apply runSM_lift_bind; intros ?).
      apply runSM_lift_bind; intros ?. apply runSM_lift. }
    rewrite Hx. now rewrite M_eta. }
  change (displayhook h obj) with
    (ensure_Out;; set_underscore obj;; Out_append obj;;
     lift (emit (SetColor (RGB 0 (1 # 2) 0)));;
     n ← len_Out;
     lift (print_noend (u "Out[" ++ str_of_int (n - 1) ++ u "]"));;
     lift (set_color h "default_text");;
     lift (print_noend (u " = "));;
     hex ← lift (getitem (theme_colors (theme_dict h)) "text_selection_tint");
     lift (emit (SetColor (Hex2rgb hex)));;
     r ← lift (repr obj);
     lift (print r);;
     lift (set_color h "default_text")).
  destruct b as [[out|] un].
  - rewrite (runSM_bind_silent _ _ _ {| Out := Some out; underscore := un |} tt)
      by reflexivity.
    rewrite (runSM_bind_silent _ _ _ {| Out := Some out; underscore := Some obj |} tt)
      by reflexivity.
    rewrite (runSM_bind_silent _ _ _ (recorded obj {| Out := Some out; underscore := un |}) tt)
      by reflexivity.
    now apply Hout.
  - rewrite (runSM_bind_silent _ _ _ {| Out := Some []; underscore := un |} tt)
      by reflexivity.
    rewrite (runSM_bind_silent _ _ _ {| Out := Some []; underscore := Some obj |} tt)
      by reflexivity.
    rewrite (runSM_bind_silent _ _ _ (recorded obj {| Out := None; underscore := un |}) tt)
      by reflexivity.
    now apply Hout.
Qed.

Lemma display_result_index h obj (k : nat) :
  exists rest,
    trace (display_result h obj (Z.of_nat (k + 1)))
    = SetColor (RGB 0 (1#2) 0)
      :: Print (u "Out[" ++ str_of_int (Z.of_nat k) ++ u "]") :: rest.
Proof.
  unfold display_result.
  replace (Z.of_nat (k + 1) - 1) with (Z.of_nat k) by lia.
  rewrite (bind_Ok (emit _) _ tt) by reflexivity. cbn [trace].
  rewrite (bind_Ok (print_noend _) _ tt) by reflexivity. cbn [trace].
  now eexists.
Qed.

Lemma display_all_step h id r rest b :
  display_all h (PyObj id r :: rest) b
  = (fst (display_all h rest (recorded (PyObj id r) b)),
     display_result h (PyObj id r) (Z.of_nat (length (history b) + 1))
     :: snd (display_all h rest (recorded (PyObj id r) b))).
Proof.
  cbn [display_all]. rewrite displayhook_eq, length_app. cbn [length].
  now destruct (display_all h rest _).
Qed.

(** From any state of [builtins]: the displayed values are appended to
    the history in order, and the call for the value at position [i] of
    the sequence prints the index [len(history) + i]. *)
Lemma display_all_appends h (vs : list pyval) :
  PyNone ∉ vs ->
  forall b,
    history (fst (display_all h vs b)) = history b ++ vs
    /\ (vs <> [] -> Out (fst (display_all h vs b)) = Some (history b ++ vs))
    /\ (forall vn, last vs = Some vn ->
        underscore (fst (display_all h vs b)) = Some vn)
    /\ length (snd (display_all h vs b)) = length vs
    /\ (forall (i : nat) m,
          snd (display_all h vs b) !! i = Some m ->
          exists rest,
            trace m
            = SetColor (RGB 0 (1#2) 0)
              :: Print (u "Out[" ++ str_of_int (Z.of_nat (length (history b) + i))
                        ++ u "]") :: rest).
Proof.
  induction vs as [|v vs IH]; intros Hnone b.
  - cbn. rewrite app_nil_r. repeat split; try easy.
  - assert (Hv : exists id r, v = PyObj id r).
    { destruct v; [exfalso; apply Hnone; left|now eauto]. }
    destruct Hv as (id & r & ->).
    assert (Hnone' : PyNone ∉ vs) by (intros Hin; apply Hnone; now right).
    rewrite display_all_step. cbn [fst snd].
    destruct (IH Hnone' (recorded (PyObj id r) b)) as (Hh & Ho & Hu & Hl & Hi).
    assert (Hrec : history (recorded (PyObj id r) b) = history b ++ [PyObj id r])
      by reflexivity.
    rewrite Hrec in *. rewrite <- app_assoc in *. cbn [app] in *.
    repeat split.
    + exact Hh.
    + intros _. destruct vs as [|v' vs']; [reflexivity|]. now apply Ho.
    + intros vn Hlast. destruct vs as [|v' vs'].
      * cbn in Hlast. injection Hlast as <-. reflexivity.
      * apply Hu. exact Hlast.
    + cbn [length]. now rewrite Hl.
    + intros [|i] m Hm.
      * rewrite lookup_cons in Hm. injection Hm as <-. rewrite Nat.add_0_r.
        apply display_result_index.
      * rewrite lookup_cons in Hm. destruct (Hi i m Hm) as [rest Hrest].
        exists rest. rewrite Hrest, length_app. cbn [length].
        now replace (length (history b) + 1 + i)%nat
          with (length (history b) + S i)%nat by lia.
Qed.

(** C5.  Starting with no history ([Out] absent or empty), after the
    display hook was called on the non-[None] values [vs] in order, the
    history is exactly [vs]: it has the length of [vs] and holds at every
    position the value displayed at that position; [_] is the last value;
    there is one call per value, and the call for the value at position
    [i] prints [Out[i]], the position at which it was appended. *)
Theorem display_history (h : host) (vs : list pyval) (b : builtins) :
  history b = [] ->
  PyNone ∉ vs ->
  history (fst (display_all h vs b)) = vs
  /\ length (history (fst (display_all h vs b))) = length vs
  /\ (forall (i : nat) v, vs !! i = Some v ->
        history (fst (display_all h vs b)) !! i = Some v)
  /\ (forall vn, last vs = Some vn ->
        underscore (fst (display_all h vs b)) = Some vn)
  /\ length (snd (display_all h vs b)) = length vs
  /\ (forall (i : nat) m,
        snd (display_all h vs b) !! i = Some m ->
        exists rest,
          trace m
          = SetColor (RGB 0 (1#2) 0)
            :: Print (u "Out[" ++ str_of_int (Z.of_nat i) ++ u "]") :: rest).
Proof.
  intros Hb Hnone.
  destruct (display_all_appends h vs Hnone b) as (Hh & _ & Hu & Hl & Hi).
  rewrite Hb in *. cbn [app length Nat.add] in *.
  rewrite Hh. repeat split; auto.
Qed.

Lemma display_history_witness :
  history (fst (display_all sample_host [two; unprintable; letter_a] fresh_builtins))
  = [two; unprintable; letter_a].
Proof.
  apply (display_history sample_host [two; unprintable; letter_a] fresh_builtins).
  - reflexivity.
  - intros H. repeat (apply elem_of_cons in H as [H|H]; [discriminate H|]).
    now apply elem_of_nil in H.
Defined.

(** C10.  For every non-[None] object the display hook leaves [builtins]
    with the object in [_] and appended to [Out], whatever happens while
    printing: the error of a failing step leaves the hook unhandled.
    When [repr] raises, the index and the [" = "] are already printed and
    the error of [repr] is what the hook raises; when the theme has no
    ["text_selection_tint"], or no ["error_text"], the [KeyError] of the
    lookup is. *)
Theorem displayhook_records_before_printing
    (h : host) (id : N) (r : result pystr) (b : builtins) :
  let obj := PyObj id r in
  let n := Z.of_nat (length (history b)) in
  let index := [SetColor (RGB 0 (1#2) 0);
                Print (u "Out[" ++ str_of_int n ++ u "]")] in
  fst (runSM (displayhook h obj) b)
  = {| Out := Some (history b ++ [obj]); underscore := Some obj |}
  /\ (forall err he hd ht,
        r = Raise err ->
        theme_colors (theme_dict h) !! "error_text"%string = Some he ->
        theme_colors (theme_dict h) !! "default_text"%string = Some hd ->
        theme_colors (theme_dict h) !! "text_selection_tint"%string = Some ht ->
        snd (runSM (displayhook h obj) b)
        = mkM (index ++ [SetColor (Hex2rgb hd); Print (u " = ");
                         SetColor (Hex2rgb ht)])
              (Raise err))
  /\ (forall he hd,
        theme_colors (theme_dict h) !! "error_text"%string = Some he ->
        theme_colors (theme_dict h) !! "default_text"%string = Some hd ->
        theme_colors (theme_dict h) !! "text_selection_tint"%string = None ->
        snd (runSM (displayhook h obj) b)
        = mkM (index ++ [SetColor (Hex2rgb hd); Print (u " = ")])
              (Raise (KeyError "text_selection_tint")))
  /\ (theme_colors (theme_dict h) !! "error_text"%string = None ->
      snd (runSM (displayhook h obj) b)
      = mkM index (Raise (KeyError "error_text"))).
Proof.
  intros obj n index. subst obj index. rewrite displayhook_eq. cbn [fst snd].
  rewrite length_app. cbn [length].
  unfold display_result.
  replace (Z.of_nat (length (history b) + 1) - 1) with n by (subst n; lia).
  repeat split.
  - intros err he hd ht -> He Hd Ht.
    rewrite (set_color_default_text h he hd He Hd).
    unfold getitem. rewrite Ht. reflexivity.
  - intros he hd He Hd Ht.
    rewrite (set_color_default_text h he hd He Hd).
    unfold getitem. rewrite Ht. reflexivity.
  - intros He. unfold set_color, getitem. rewrite He. reflexivity.
Qed.

Lemma displayhook_records_before_printing_witness :
  snd (runSM (displayhook sample_host unprintable) fresh_builtins)
  = mkM [SetColor (RGB 0 (1#2) 0); Print (u "Out[" ++ str_of_int 0 ++ u "]");
         SetColor (Hex2rgb "#000000"); Print (u " = ");
         SetColor (Hex2rgb "#0000ff")]
        (Raise (Raised true "ValueError")).
Proof.
  destruct (displayhook_records_before_printing sample_host 2
              (Raise (Raised true "ValueError")) fresh_builtins)
    as (_ & Hrepr & _).
  apply (Hrepr (Raised true "ValueError") "#ff0000" "#000000" "#0000ff");
    reflexivity.
Defined.

(** ** Path shortening *)

Lemma startswith_inv (s p : pystr) :
  startswith s p = true -> s = p ++ skipn (length p) s.
Proof.
  revert s. induction p as [|c p IH]; intros s H; [reflexivity|].
  destruct s as [|d s]; [discriminate H|]. cbn in H.
  destruct (N.eqb d c) eqn:Hdc; [|discriminate H].
  apply N.eqb_eq in Hdc as ->. cbn. f_equal. now apply IH.
Qed.

Lemma short_path_no_match path prefixes :
  forallb (fun prefix => negb (startswith path prefix)) prefixes = true ->
  short_path path prefixes = path.
Proof.
  induction prefixes as [|p ps IH]; [reflexivity|].
  cbn. intros H. apply andb_prop in H as [Hp Hps].
  destruct (startswith path p); [discriminate Hp|]. now apply IH.
Qed.

Lemma short_path_first_match path before prefix after :
  forallb (fun p => negb (startswith path p)) before = true ->
  startswith path prefix = true ->
  short_path path (before ++ prefix :: after) = skipn (length prefix) path.
Proof.
  intros Hb Hp. induction before as [|p ps IH]; cbn.
  - now rewrite Hp.
  - cbn in Hb. apply andb_prop in Hb as [Hp' Hps].
    destruct (startswith path p); [discriminate Hp'|]. now apply IH.
Qed.

(** C7 (amended).  A path enclosed in angle brackets is written
    unchanged with [print], with no editor link.  Any other path is
    written as a link whose text is the path with the first configured
    prefix that starts it cut off, that prefix being the only part
    removed; when no prefix starts the path the text is the path itself.
    Shortening the text again changes nothing provided no configured
    prefix starts the text. *)
Theorem write_filename_shortens (h : host) (path : pystr) (lineno : Z) :
  (is_marker path = true ->
     write_filename h path (Some lineno) = mkM [Print path] (Ok tt)
     /\ displayed h path = path)
  /\ (is_marker path = false ->
        write_filename h path (Some lineno)
        = mkM [WriteLink (displayed h path) (editor_url h path lineno)] (Ok tt))
  /\ (forall before prefix after,
        is_marker path = false ->
        REMOVE_PREFIXES h = before ++ prefix :: after ->
        forallb (fun p => negb (startswith path p)) before = true ->
        startswith path prefix = true ->
        path = prefix ++ displayed h path)
  /\ (no_prefix_matches h path = true -> displayed h path = path)
  /\ (no_prefix_matches h (displayed h path) = true ->
        displayed h (displayed h path) = displayed h path).
Proof.
  assert (Hno : forall p, no_prefix_matches h p = true -> displayed h p = p).
  { intros p Hp. unfold displayed. destruct (is_marker p); [reflexivity|].
    now apply short_path_no_match. }
  unfold write_filename, displayed at 1 2 3 4.
  split; [|split; [|split; [|split]]].
  - intros Hm. now rewrite Hm.
  - intros Hm. now rewrite Hm.
  - intros before prefix after Hm Hr Hb Hp. rewrite Hm, Hr.
    rewrite (short_path_first_match _ _ _ _ Hb Hp).
    now apply startswith_inv.
  - intros Hp. fold (displayed h path). now apply Hno.
  - apply Hno.
Qed.

Lemma write_filename_shortens_witness :
  displayed sample_host (displayed sample_host (u "/h/Documents/a.py"))
  = displayed sample_host (u "/h/Documents/a.py").
Proof.
  apply (write_filename_shortens sample_host (u "/h/Documents/a.py") 3).
  reflexivity.
Defined.

(** C7 fails as stated: only one prefix is cut off, so a shortened path
    that again starts with a configured prefix is shortened further. *)
Lemma shortening_not_idempotent :
  displayed sample_host (u "/h//app/lib/x.py") = u "/app/lib/x.py"
  /\ displayed sample_host (displayed sample_host (u "/h//app/lib/x.py"))
     = u "lib/x.py"
  /\ displayed sample_host (displayed sample_host (u "/h//app/lib/x.py"))
     <> displayed sample_host (u "/h//app/lib/x.py").
Proof. repeat split. vm_compute. discriminate. Qed.

(** ** Blended colours *)

(** The colour set for a blended token is built from the colour of its
    scope and from the error colour. *)
Lemma set_color_blended h type_text scope_name he scope hs :
  (type_text, scope_name) ∈ [("filename", "default"); ("lineno", "number");
                              ("funcname", "function")]%string ->
  theme_colors (theme_dict h) !! "error_text"%string = Some he ->
  (theme_scopes (theme_dict h) ≫= (.!! scope_name)) = Some scope ->
  scope !! "color"%string = Some hs ->
  set_color h type_text
  = mkM [SetColor (MeanRound2 (Hex2rgb hs) (Hex2rgb he))] (Ok tt).
Proof.
  intros Hin He Hsc Hs. unfold set_color, getitem. rewrite He.
  destruct (theme_scopes (theme_dict h)) as [sc|]; [|discriminate Hsc].
  cbn in Hsc.
  repeat (apply elem_of_cons in Hin as [[= -> ->]|Hin];
          [cbn; rewrite Hsc; cbn; rewrite Hs; reflexivity|]).
  now apply elem_of_nil in Hin.
Qed.

(** * Further properties of the code *)

(** ** [set_color] *)

(** X1.  [set_color] never leaves a partial output: it either sets
    exactly one colour and returns, or raises an error derived from
    [Exception] having set none.  It reads ["error_text"] before it looks
    at its argument, so under a theme without that entry every call,
    the one for ["default_text"] included, raises
    [KeyError("error_text")]. *)
Theorem set_color_all_or_nothing (h : host) (type_text : string) :
  ((exists err, set_color h type_text = mkM [] (Raise err)
                /\ is_Exception err = true)
   \/ (exists c, set_color h type_text = mkM [SetColor c] (Ok tt)))
  /\ (theme_colors (theme_dict h) !! "error_text"%string = None ->
      set_color h type_text = mkM [] (Raise (KeyError "error_text"))).
Proof.
  split.
  - destruct (set_color_cases h type_text) as [[err He]|[c Hc]].
    + left. exists err. split; [exact He|].
      apply (catchable_set_color h type_text). now rewrite He.
    + right. now exists c.
  - intros He. unfold set_color, getitem. now rewrite He.
Qed.

Lemma set_color_all_or_nothing_witness :
  set_color bare_host "default_text" = mkM [] (Raise (KeyError "error_text")).
Proof.
  apply (set_color_all_or_nothing bare_host "default_text"). reflexivity.
Defined.

(** X2.  A name other than the five [set_color] knows binds no
    [thcolor]: once ["error_text"] is found the call raises, without
    output, [KeyError("scopes")] when the theme has no scopes (the
    subscript is evaluated first) and [UnboundLocalError] otherwise. *)
Theorem set_color_unknown_name (h : host) (type_text he : string) :
  type_text ∉ known_type_texts ->
  theme_colors (theme_dict h) !! "error_text"%string = Some he ->
  set_color h type_text
  = mkM [] (Raise (match theme_scopes (theme_dict h) with
                   | Some _ => UnboundLocalError "thcolor"
                   | None => KeyError "scopes"
                   end)).
Proof.
  intros Hnot He. unfold set_color, getitem. rewrite He. cbn.
  assert (Hne : forall s, s ∈ known_type_texts -> String.eqb type_text s = false).
  { intros s Hs. apply String.eqb_neq. intros ->. now apply Hnot. }
  unfold known_type_texts in Hne.
  rewrite !Hne by (repeat first [now left | right]).
  now destruct (theme_scopes (theme_dict h)).
Qed.

Lemma set_color_unknown_name_witness :
  set_color sample_host "selection" = mkM [] (Raise (UnboundLocalError "thcolor")).
Proof.
  apply (set_color_unknown_name sample_host "selection" "#ff0000").
  - intros H. repeat (apply elem_of_cons in H as [H|H]; [discriminate H|]).
    now apply elem_of_nil in H.
  - reflexivity.
Defined.

Lemma set_color_lookups (h : host) (he : string) :
  theme_colors (theme_dict h) !! "error_text"%string = Some he ->
  set_color h "default" = mkM [SetColor (Hex2rgb he)] (Ok tt)
  /\ (forall hd, theme_colors (theme_dict h) !! "default_text"%string = Some hd ->
        set_color h "default_text" = mkM [SetColor (Hex2rgb hd)] (Ok tt))
  /\ (forall type_text scope_name hs,
        (type_text, scope_name)
          ∈ [("filename", "default"); ("lineno", "number");
             ("funcname", "function")]%string ->
        scope_color h scope_name = Some hs ->
        set_color h type_text
        = mkM [SetColor (MeanRound2 (Hex2rgb hs) (Hex2rgb he))] (Ok tt))
  /\ (forall type_text scope_name,
        (type_text, scope_name)
          ∈ [("filename", "default"); ("lineno", "number");
             ("funcname", "function")]%string ->
        scope_color h scope_name = None ->
        exists key, set_color h type_text = mkM [] (Raise (KeyError key))).
Proof.
  intros He. repeat split.
  - unfold set_color, getitem. now rewrite He.
  - intros hd Hd. now apply (set_color_default_text h he hd).
  - intros type_text scope_name hs Hin Hs. unfold scope_color in Hs.
    destruct (theme_scopes (theme_dict h)) as [sc|] eqn:Hsc; [|discriminate Hs].
    destruct (sc !! scope_name) as [scope|] eqn:Hscope; [|discriminate Hs].
    apply (set_color_blended h type_text scope_name he scope hs Hin He);
      [|exact Hs].
    rewrite Hsc. cbn. exact Hscope.
  - intros type_text scope_name Hin Hs. unfold scope_color in Hs.
    unfold set_color, getitem. rewrite He. cbn.
    repeat (apply elem_of_cons in Hin as [[= -> ->]|Hin];
      [cbn; destruct (theme_scopes (theme_dict h)) as [sc|];
         [cbn; destruct (sc !! _) as [scope|];
            [cbn; rewrite Hs; now eexists|now eexists]
         |now eexists]
      |]).
    now apply elem_of_nil in Hin.
Qed.

(** X3.  The colour of a blended token is computed from the colour of
    its own scope (["default"] for file names, ["number"] for line
    numbers, ["function"] for function names) and from ["error_text"];
    ["default"] sets the error colour itself and ["default_text"] the
    default text colour, neither of them blended. *)
Theorem set_color_table (h : host) (he : string) :
  theme_colors (theme_dict h) !! "error_text"%string = Some he ->
  set_color h "default" = mkM [SetColor (Hex2rgb he)] (Ok tt)
  /\ (forall hd, theme_colors (theme_dict h) !! "default_text"%string = Some hd ->
        set_color h "default_text" = mkM [SetColor (Hex2rgb hd)] (Ok tt))
  /\ (forall type_text scope_name hs,
        (type_text, scope_name)
          ∈ [("filename", "default"); ("lineno", "number");
             ("funcname", "function")]%string ->
        scope_color h scope_name = Some hs ->
        set_color h type_text
        = mkM [SetColor (MeanRound2 (Hex2rgb hs) (Hex2rgb he))] (Ok tt))
  /\ (forall type_text scope_name,
        (type_text, scope_name)
          ∈ [("filename", "default"); ("lineno", "number");
             ("funcname", "function")]%string ->
        scope_color h scope_name = None ->
        exists key, set_color h type_text = mkM [] (Raise (KeyError key))).
Proof. exact (set_color_lookups h he). Qed.

Lemma set_color_table_witness :
  set_color sample_host "lineno"
  = mkM [SetColor (MeanRound2 (Hex2rgb "#222222") (Hex2rgb "#ff0000"))] (Ok tt).
Proof.
  destruct (set_color_table sample_host "#ff0000" eq_refl) as (_ & _ & Hb & _).
  apply (Hb "lineno"%string "number"%string "#222222"%string).
  - right. left.
  - reflexivity.
Defined.

(** ** The editor link *)

Lemma replace_space_no_space (s : pystr) : 32%N ∉ replace_space s.
Proof.
  induction s as [|c s IH]; cbn [replace_space].
  - apply not_elem_of_nil.
  - destruct (N.eqb c 32) eqn:Hc.
    + intros H. apply elem_of_app in H as [H|H]; [|now apply IH].
      vm_compute in H.
      repeat (apply elem_of_cons in H as [H|H]; [discriminate H|]).
      now apply elem_of_nil in H.
    + intros H. apply elem_of_cons in H as [H|H]; [|now apply IH].
      subst c. discriminate Hc.
Qed.

(** X4.  The URL of the editor link holds no space, whatever the real
    path of the file and the line number: every space of the command and
    of the path is written ["%20"].  It starts with the scheme of the
    running application. *)
Theorem editor_url_has_no_space (h : host) (path : pystr) (lineno : Z) :
  (32%N ∉ editor_url h path lineno)
  /\ startswith (editor_url h path lineno)
       (if executable_is_Pythonista3 h then u "pythonista3://"
        else u "pythonista://") = true.
Proof.
  unfold editor_url. repeat split.
  - intros H. apply elem_of_app in H as [H|H].
    + destruct (executable_is_Pythonista3 h); vm_compute in H;
        repeat (apply elem_of_cons in H as [H|H]; [discriminate H|]);
        now apply elem_of_nil in H.
    + now apply replace_space_no_space in H.
  - destruct (executable_is_Pythonista3 h); cbn [app];
      match goal with |- startswith (?p ++ ?r) ?p = true =>
        generalize r; intros r'; vm_compute; now destruct r' end.
Qed.

(** ** What shortening removes *)

Lemma short_path_removed (path : pystr) (prefixes : list pystr) :
  short_path path prefixes = path
  \/ exists prefix, prefix ∈ prefixes /\ path = prefix ++ short_path path prefixes.
Proof.
  induction prefixes as [|p ps IH]; [now left|]. cbn [short_path].
  destruct (startswith path p) eqn:Hp.
  - right. exists p. split; [now left|]. now apply startswith_inv.
  - destruct IH as [IH|(q & Hq & IH)]; [now left|].
    right. exists q. split; [now right|exact IH].
Qed.

(** X5.  Shortening only ever cuts characters off the front: the text
    shown for a path is a suffix of the path, and what is missing in
    front is nothing or exactly one of the configured prefixes.  The text
    is never longer than the path. *)
Theorem displayed_is_suffix (h : host) (path : pystr) :
  exists removed,
    path = removed ++ displayed h path
    /\ (removed = [] \/ removed ∈ REMOVE_PREFIXES h)
    /\ (length (displayed h path) <= length path)%nat.
Proof.
  assert (H : exists removed, path = removed ++ displayed h path
                /\ (removed = [] \/ removed ∈ REMOVE_PREFIXES h)).
  { unfold displayed. destruct (is_marker path); [exists []; now split; [|left]|].
    destruct (short_path_removed path (REMOVE_PREFIXES h)) as [->|(p & Hp & Heq)].
    - exists []. split; [reflexivity|now left].
    - exists p. split; [exact Heq|now right]. }
  destruct H as (removed & Heq & Hin). exists removed. repeat split; auto.
  rewrite Heq at 2. rewrite length_app. lia.
Qed.

(** X6.  The two prefixes [run] installs end with the path separator.
    So a path is shortened only at a directory boundary, by a whole
    leading directory with its separator, and a path that is shortened
    gets strictly shorter. *)
Theorem installed_prefixes_cut_directories
    (basename dirname : pystr -> pystr) (home executable path : pystr) :
  let prefixes := install_prefixes basename dirname home executable in
  Forall (fun prefix => endswith prefix sep = true) prefixes
  /\ (short_path path prefixes = path
      \/ exists dir,
           dir ++ sep ∈ prefixes
           /\ path = (dir ++ sep) ++ short_path path prefixes
           /\ (length (short_path path prefixes) < length path)%nat).
Proof.
  intros prefixes.
  assert (Hends : forall dir : pystr, endswith (dir ++ sep) sep = true).
  { intros dir. unfold endswith, sep. rewrite rev_app_distr.
    change (rev (u "/")) with [47%N]. cbn. now destruct (rev dir). }
  assert (Hshape : forall p, p ∈ prefixes -> exists dir, p = dir ++ sep).
  { intros p Hp. subst prefixes. unfold install_prefixes in Hp.
    apply elem_of_cons in Hp as [->|Hp]; [unfold APP_GROUP_DIR; now eexists|].
    apply elem_of_cons in Hp as [->|Hp]; [|now apply elem_of_nil in Hp].
    unfold APP_DIR. cbn [app u List.map list_ascii_of_string]. now eexists. }
  split.
  - apply Forall_forall. intros p Hp.
    destruct (Hshape p Hp) as [dir ->]. apply Hends.
  - destruct (short_path_removed path prefixes) as [Hsame|(p & Hp & Heq)];
      [now left|right].
    destruct (Hshape p Hp) as [dir ->]. exists dir. repeat split; auto.
    rewrite Heq at 2. rewrite !length_app. cbn. lia.
Qed.

(** ** The text of a traceback *)

Lemma printed_text_app (t1 t2 : list event) :
  printed_text (t1 ++ t2) = printed_text t1 ++ printed_text t2.
Proof.
  induction t1 as [|ev t1 IH]; [reflexivity|].
  destruct ev; cbn; rewrite IH; now rewrite ?app_assoc.
Qed.

Lemma palette_colors (h : host) :
  palette_ok h ->
  exists cd cf cl cn,
    set_color h "default" = mkM [SetColor cd] (Ok tt)
    /\ set_color h "filename" = mkM [SetColor cf] (Ok tt)
    /\ set_color h "lineno" = mkM [SetColor cl] (Ok tt)
    /\ set_color h "funcname" = mkM [SetColor cn] (Ok tt).
Proof.
  intros ([he He] & [hf Hf] & [hl Hl] & [hn Hn]).
  destruct (set_color_lookups h he He) as (Hd & _ & Hb & _).
  exists (Hex2rgb he), (MeanRound2 (Hex2rgb hf) (Hex2rgb he)),
         (MeanRound2 (Hex2rgb hl) (Hex2rgb he)),
         (MeanRound2 (Hex2rgb hn) (Hex2rgb he)).
  split; [exact Hd|].
  split; [apply (Hb "filename"%string "default"%string hf); [now left|exact Hf]|].
  split; [apply (Hb "lineno"%string "number"%string hl); [right; now left|exact Hl]|].
  apply (Hb "funcname"%string "function"%string hn); [right; right; now left|exact Hn].
Qed.

Lemma write_filename_text h path lineno :
  outcome (write_filename h path (Some lineno)) = Ok tt
  /\ printed_text (trace (write_filename h path (Some lineno))) = displayed h path.
Proof.
  unfold write_filename, displayed.
  destruct (is_marker path); cbn; now rewrite app_nil_r.
Qed.

Lemma render_frame_text h f :
  palette_ok h ->
  outcome (render_frame h f) = Ok tt
  /\ printed_text (trace (render_frame h f)) = frame_text h f.
Proof.
  intros Hp. destruct (palette_colors h Hp) as (cd & cf & cl & cn & Hd & Hf & Hl & Hn).
  destruct (write_filename_text h (filename f) (lineno f)) as [Hwo Hwt].
  unfold render_frame. rewrite Hd, Hf, Hl, Hn.
  destruct (write_filename h (filename f) (Some (lineno f))) as [tw ow].
  cbn in Hwo, Hwt. subst ow. unfold frame_text. rewrite <- Hwt.
  split; [reflexivity|].
  cbn. rewrite printed_text_app. cbn.
  now rewrite <- ?app_assoc, ?app_nil_r.
Qed.

Lemma for_each_render_frame_text h fs :
  palette_ok h ->
  outcome (for_each fs (render_frame h)) = Ok tt
  /\ printed_text (trace (for_each fs (render_frame h)))
     = concat (List.map (frame_text h) fs).
Proof.
  intros Hp. induction fs as [|f fs [IHo IHt]]; [now split|].
  destruct (render_frame_text h f Hp) as [Ho Ht].
  cbn [for_each List.map concat]. rewrite (bind_Ok _ _ tt Ho). cbn [trace outcome].
  split; [exact IHo|]. now rewrite printed_text_app, Ht, IHt.
Qed.

(** X7.  Under a theme that has the traceback colours, every frame is
    rendered without error, and the text it puts on the console, the
    colour changes left aside, is that of the standard traceback with the
    shortened file name: a tab, ["File <shown>, line <n>, in <name>:"],
    then the source line (or the placeholder) behind two tabs, then a
    blank line. *)
Theorem frame_has_traceback_text (h : host) (f : frame) :
  palette_ok h ->
  outcome (render_frame h f) = Ok tt
  /\ printed_text (trace (render_frame h f))
     = TAB ++ u "File " ++ displayed h (filename f) ++ u ", line "
       ++ str_of_int (lineno f) ++ u ", in " ++ funcname f ++ u ":" ++ NL
       ++ TAB ++ TAB ++ text_or_unavailable h (text f) ++ NL ++ NL.
Proof. intros Hp. exact (render_frame_text h f Hp). Qed.

Lemma frame_has_traceback_text_witness :
  outcome (render_frame sample_host
             {| filename := u "/h/Documents/a.py"; lineno := 3;
                funcname := u "f"; text := Some (StrText (u "x = 1")) |})
  = Ok tt.
Proof.
  apply (frame_has_traceback_text sample_host
           {| filename := u "/h/Documents/a.py"; lineno := 3;
              funcname := u "f"; text := Some (StrText (u "x = 1")) |}).
  repeat split; eexists; reflexivity.
Defined.

Lemma _excepthook_text (h : host) (e : exn) (msg : pystr) :
  palette_ok h ->
  syntax e = None ->
  exc_str e = Ok msg ->
  outcome (_excepthook h e) = Ok tt
  /\ printed_text (trace (_excepthook h e))
     = u "Traceback (most recent call last):" ++ NL
       ++ concat (List.map (frame_text h) (exc_traceback e))
       ++ exc_module e ++ u "." ++ exc_qualname e
       ++ match msg with
          | [] => []
          | _ => u ": " ++ msg
          end
       ++ NL.
Proof.
  intros Hp Hs Hstr.
  destruct (palette_colors h Hp) as (cd & cf & cl & cn & Hd & Hf & Hl & Hn).
  destruct (for_each_render_frame_text h (exc_traceback e) Hp) as [Hfo Hft].
  unfold _excepthook. rewrite Hs, Hstr, Hd, Hf, Hn.
  destruct (for_each (exc_traceback e) (render_frame h)) as [tf outf].
  cbn in Hfo, Hft. subst outf. rewrite <- Hft.
  destruct msg as [|c msg]; cbn.
  - split; [reflexivity|]. rewrite !printed_text_app. cbn.
    now rewrite <- ?app_assoc, ?app_nil_r.
  - split; [reflexivity|]. rewrite !printed_text_app. cbn.
    now rewrite <- ?app_assoc, ?app_nil_r.
Qed.

(** X8.  Under such a theme, for an exception that is no syntax error
    and whose [str] returns, [_excepthook] returns normally and prints
    the header line, the text of every frame in the order of the
    traceback, and one summary line: module, a dot, the qualified name of
    the class and, only when the message is not empty, [": "] and the
    message. *)
Theorem traceback_text (h : host) (e : exn) (msg : pystr) :
  palette_ok h ->
  syntax e = None ->
  exc_str e = Ok msg ->
  outcome (_excepthook h e) = Ok tt
  /\ printed_text (trace (_excepthook h e))
     = u "Traceback (most recent call last):" ++ NL
       ++ concat (List.map (frame_text h) (exc_traceback e))
       ++ exc_module e ++ u "." ++ exc_qualname e
       ++ match msg with
          | [] => []
          | _ => u ": " ++ msg
          end
       ++ NL.
Proof. exact (_excepthook_text h e msg). Qed.

Lemma traceback_text_witness :
  outcome (_excepthook sample_host value_error) = Ok tt.
Proof.
  apply (traceback_text sample_host value_error (u "bad")).
  - repeat split; eexists; reflexivity.
  - reflexivity.
  - reflexivity.
Defined.

(** X9.  When [str(exc_value)] raises, [_excepthook] raises that very
    error, after the header, the frames and the name of the class are
    on the console and before the line is ended. *)
Theorem traceback_str_raises (h : host) (e : exn) (err : pyerr) :
  palette_ok h ->
  syntax e = None ->
  exc_str e = Raise err ->
  outcome (_excepthook h e) = Raise err
  /\ printed_text (trace (_excepthook h e))
     = u "Traceback (most recent call last):" ++ NL
       ++ concat (List.map (frame_text h) (exc_traceback e))
       ++ exc_module e ++ u "." ++ exc_qualname e.
Proof.
  intros Hp Hs Hstr.
  destruct (palette_colors h Hp) as (cd & cf & cl & cn & Hd & Hf & Hl & Hn).
  destruct (for_each_render_frame_text h (exc_traceback e) Hp) as [Hfo Hft].
  unfold _excepthook. rewrite Hs, Hstr, Hd, Hf, Hn.
  destruct (for_each (exc_traceback e) (render_frame h)) as [tf outf].
  cbn in Hfo, Hft. subst outf. rewrite <- Hft. cbn.
  split; [reflexivity|]. rewrite !printed_text_app. cbn.
  now rewrite <- ?app_assoc, ?app_nil_r.
Qed.

Lemma traceback_str_raises_witness :
  outcome (_excepthook sample_host interrupting)
  = Raise (Raised false "KeyboardInterrupt").
Proof.
  apply (traceback_str_raises sample_host interrupting
           (Raised false "KeyboardInterrupt")).
  - repeat split; eexists; reflexivity.
  - reflexivity.
  - reflexivity.
Defined.

(** ** The display hook, further *)

(** X10.  Under a theme with ["error_text"], ["default_text"] and
    ["text_selection_tint"], a non-[None] object whose [repr] returns is
    shown as [Out[n] = <repr>] on one line, [n] being the number of
    entries [Out] had before: the index in green, [" = "] in the default
    text colour, the representation in the selection tint, and the
    default text colour is set again before the hook returns. *)
Theorem displayhook_prints_result
    (h : host) (id : N) (s : pystr) (b : builtins) (he hd ht : string) :
  theme_colors (theme_dict h) !! "error_text"%string = Some he ->
  theme_colors (theme_dict h) !! "default_text"%string = Some hd ->
  theme_colors (theme_dict h) !! "text_selection_tint"%string = Some ht ->
  let n := Z.of_nat (length (history b)) in
  snd (runSM (displayhook h (PyObj id (Ok s))) b)
  = mkM [ SetColor (RGB 0 (1#2) 0);
          Print (u "Out[" ++ str_of_int n ++ u "]");
          SetColor (Hex2rgb hd);
          Print (u " = ");
          SetColor (Hex2rgb ht);
          Print (s ++ NL);
          SetColor (Hex2rgb hd) ] (Ok tt)
  /\ printed_text (trace (snd (runSM (displayhook h (PyObj id (Ok s))) b)))
     = u "Out[" ++ str_of_int n ++ u "] = " ++ s ++ NL.
Proof.
  intros He Hd Ht n.
  assert (Heq : snd (runSM (displayhook h (PyObj id (Ok s))) b)
    = mkM [ SetColor (RGB 0 (1#2) 0);
            Print (u "Out[" ++ str_of_int n ++ u "]");
            SetColor (Hex2rgb hd);
            Print (u " = ");
            SetColor (Hex2rgb ht);
            Print (s ++ NL);
            SetColor (Hex2rgb hd) ] (Ok tt)).
  { rewrite displayhook_eq. cbn [snd]. rewrite length_app. cbn [length].
    unfold display_result.
    replace (Z.of_nat (length (history b) + 1) - 1) with n by (subst n; lia).
    rewrite (set_color_default_text h he hd He Hd).
    unfold getitem. rewrite Ht. reflexivity. }
  split; [exact Heq|]. rewrite Heq. cbn.
  rewrite <- ?app_assoc, ?app_nil_r. reflexivity.
Qed.

Lemma displayhook_prints_result_witness :
  printed_text (trace (snd (runSM (displayhook sample_host two) fresh_builtins)))
  = u "Out[" ++ str_of_int 0 ++ u "] = " ++ u "2" ++ NL.
Proof.
  apply (displayhook_prints_result sample_host 1 (u "2") fresh_builtins
           "#ff0000" "#000000" "#0000ff"); reflexivity.
Defined.

Lemma displayhook_None_noop_eq h b :
  runSM (displayhook h PyNone) b = (b, mkM [] (Ok tt)).
Proof. reflexivity. Qed.

(** X11.  Whatever values the display hook is called on, [None] among
    them, and whether or not [Out] held entries before: afterwards the
    history is the old history followed by the values that are not
    [None], in the order of the calls.  No entry is removed or changed,
    and a call on [None] prints nothing. *)
Theorem display_skips_None (h : host) (vs : list pyval) (b : builtins) :
  history (fst (display_all h vs b)) = history b ++ List.filter is_not_None vs
  /\ length (snd (display_all h vs b)) = length vs
  /\ (forall (i : nat) m,
        vs !! i = Some PyNone ->
        snd (display_all h vs b) !! i = Some m ->
        m = mkM [] (Ok tt)).
Proof.
  revert b. induction vs as [|v vs IH]; intros b.
  - cbn. rewrite app_nil_r. repeat split. intros i m H. now destruct i.
  - destruct v as [|id r].
    + cbn [display_all List.filter is_not_None].
      rewrite displayhook_None_noop_eq.
      destruct (IH b) as (Hh & Hl & Hn).
      destruct (display_all h vs b) as [b2 ms]. cbn [fst snd] in *.
      repeat split; [exact Hh|cbn; now rewrite Hl|].
      intros [|i] m Hv Hm.
      * cbn in Hm. now injection Hm as <-.
      * cbn in Hv, Hm. now apply (Hn i).
    + rewrite display_all_step. cbn [fst snd List.filter is_not_None].
      destruct (IH (recorded (PyObj id r) b)) as (Hh & Hl & Hn).
      repeat split.
      * rewrite Hh. change (history (recorded (PyObj id r) b))
          with (history b ++ [PyObj id r]). now rewrite <- app_assoc.
      * cbn. now rewrite Hl.
      * intros [|i] m Hv Hm.
        -- rewrite lookup_cons in Hv. discriminate Hv.
        -- rewrite lookup_cons in Hv. rewrite lookup_cons in Hm.
           now apply (Hn i).
Qed.

(** ** Implicit chaining and the root of a chain *)

Lemma chain_prefix_context h e c :
  cause e = None -> context e = Some c -> suppress_context e = false ->
  chain_prefix h e = (excepthook h c;; mkM context_separator (Ok tt)).
Proof. intros Hca Hcx Hsu. unfold chain_prefix. now rewrite Hca, Hcx, Hsu. Qed.

(** X12.  For an exception with no [__cause__], a [__context__] and
    [__suppress_context__] false, whatever the hook prints starts with
    everything the recursive call on the context prints.  When that call
    returns normally, the block of the sentence "During handling of the
    above exception, another exception occurred:" (red, blank line,
    sentence, blank line) comes next and the traceback of the current
    exception after it; when that call raises, nothing of the current
    exception is printed. *)
Theorem context_chain_printed_first (h : host) (e c : exn) :
  cause e = None ->
  context e = Some c ->
  suppress_context e = false ->
  (exists rest, trace (excepthook h e) = trace (excepthook h c) ++ rest)
  /\ (outcome (excepthook h c) = Ok tt ->
      trace (excepthook h e)
      = trace (excepthook h c) ++ context_separator ++ trace (_excepthook h e)
        ++ trace (guarded h (mkM [] (outcome (_excepthook h e)))))
  /\ (forall err, outcome (excepthook h c) = Raise err ->
      trace (excepthook h e)
      = trace (excepthook h c) ++ trace (guarded h (raise err))).
Proof.
  intros Hca Hcx Hsu.
  assert (Hok : outcome (excepthook h c) = Ok tt ->
      trace (excepthook h e)
      = trace (excepthook h c) ++ context_separator ++ trace (_excepthook h e)
        ++ trace (guarded h (mkM [] (outcome (_excepthook h e))))).
  { intros Hret. rewrite (excepthook_eq h e), (chain_prefix_context h e c Hca Hcx Hsu).
    rewrite guarded_bind_Ok by (rewrite (bind_Ok _ _ _ Hret); reflexivity).
    cbn [trace]. rewrite (bind_Ok _ _ _ Hret). cbn [trace].
    rewrite guarded_trace. now rewrite <- !app_assoc. }
  assert (Hraise : forall err, outcome (excepthook h c) = Raise err ->
      trace (excepthook h e)
      = trace (excepthook h c) ++ trace (guarded h (raise err))).
  { intros err Hret.
    rewrite (excepthook_eq h e), (chain_prefix_context h e c Hca Hcx Hsu).
    rewrite (guarded_bind_Raise _ _ _ err)
      by (rewrite (bind_Raise _ _ _ Hret); reflexivity).
    cbn [trace]. now rewrite (bind_Raise _ _ _ Hret). }
  split; [|split]; [|exact Hok|exact Hraise].
  destruct (outcome (excepthook h c)) as [[]|err] eqn:Hret.
  - rewrite Hok by reflexivity. now eexists.
  - rewrite (Hraise err) by reflexivity. now eexists.
Qed.

Lemma context_chain_printed_first_witness :
  trace (excepthook sample_host runtime_error_during_value_error)
  = trace (excepthook sample_host value_error) ++ context_separator
    ++ trace (_excepthook sample_host runtime_error_during_value_error)
    ++ trace (guarded sample_host
                (mkM [] (outcome (_excepthook sample_host
                                    runtime_error_during_value_error)))).
Proof.
  apply (context_chain_printed_first sample_host
           runtime_error_during_value_error value_error).
  - reflexivity.
  - reflexivity.
  - reflexivity.
  - vm_compute. reflexivity.
Defined.

Lemma bind_trace_starts {A B} (m : M A) (f : A -> M B) :
  exists rest, trace (m ≫= f) = trace m ++ rest.
Proof.
  destruct (outcome m) as [a|err] eqn:Hm.
  - rewrite (bind_Ok _ _ _ Hm). now eexists.
  - rewrite (bind_Raise _ _ _ Hm). exists []. cbn. now rewrite app_nil_r.
Qed.

Lemma excepthook_starts_at_root (h : host) (e : exn) :
  exists rest, trace (excepthook h e) = trace (_excepthook h (root e)) ++ rest.
Proof.
  induction e as [m q s st tb ca cx su IHca IHcx] using exn_chain_ind.
  set (e := Exn m q s st tb ca cx su).
  assert (Hlink : forall c,
            (exists rest, trace (excepthook h c) = trace (_excepthook h (root c)) ++ rest) ->
            forall k : M unit,
            exists rest, trace (guarded h ((excepthook h c;; k);; _excepthook h e))
                         = trace (_excepthook h (root c)) ++ rest).
  { intros c [r1 H1] k. rewrite guarded_trace.
    destruct (bind_trace_starts (excepthook h c;; k) (fun _ => _excepthook h e))
      as [r2 H2].
    destruct (bind_trace_starts (excepthook h c) (fun _ => k)) as [r3 H3].
    rewrite H2, H3, H1. rewrite <- !app_assoc. now eexists. }
  assert (Hleaf : exists rest,
            trace (guarded h (mret tt;; _excepthook h e))
            = trace (_excepthook h e) ++ rest).
  { rewrite guarded_trace.
    rewrite (bind_Ok (mret tt) _ tt) by reflexivity. cbn [trace mret M_ret app].
    now eexists. }
  rewrite excepthook_eq. unfold chain_prefix. subst e.
  cbn [cause context suppress_context root].
  destruct ca as [c|].
  - now apply Hlink.
  - destruct cx as [c|]; [|exact Hleaf].
    destruct su; cbn [negb]; [exact Hleaf|]. now apply Hlink.
Qed.

(** ** The hook under the recursion limit *)

Lemma excepthook_within_enough h depth :
  forall e, (chain_length e <= depth)%nat ->
            excepthook_within depth h e = Some (excepthook h e).
Proof.
  induction depth as [|depth IH]; intros e Hlen.
  - destruct e; cbn in Hlen; lia.
  - rewrite excepthook_eq. unfold chain_prefix.
    destruct e as [m q s st tb ca cx su].
    cbn [excepthook_within chain_length cause context suppress_context] in *.
    destruct ca as [c|].
    + rewrite (IH c) by lia. reflexivity.
    + destruct cx as [c|]; [|reflexivity].
      destruct su; cbn [negb] in *; [reflexivity|].
      rewrite (IH c) by lia. reflexivity.
Qed.

Lemma excepthook_within_eq h depth :
  forall e m, excepthook_within depth h e = Some m -> m = excepthook h e.
Proof.
  induction depth as [|depth IH]; intros e m Hm; [discriminate Hm|].
  rewrite excepthook_eq. unfold chain_prefix.
  destruct e as [mo q s st tb ca cx su].
  cbn [excepthook_within cause context suppress_context] in *.
  destruct ca as [c|].
  - destruct (excepthook_within depth h c) as [inner|] eqn:Hc; [|discriminate Hm].
    rewrite <- (IH c inner Hc). now injection Hm as <-.
  - destruct cx as [c|]; [|now injection Hm as <-].
    destruct su; cbn [negb] in *; [now injection Hm as <-|].
    destruct (excepthook_within depth h c) as [inner|] eqn:Hc; [|discriminate Hm].
    rewrite <- (IH c inner Hc). now injection Hm as <-.
Qed.

Lemma raw_tracebacks_app (t1 t2 : list event) :
  raw_tracebacks (t1 ++ t2) = raw_tracebacks t1 ++ raw_tracebacks t2.
Proof.
  induction t1 as [|ev t1 IH]; [reflexivity|].
  destruct ev; cbn; now rewrite IH.
Qed.

Lemma quiet_bind {A B} (m : M A) (f : A -> M B) :
  quiet m -> (forall a, quiet (f a)) -> quiet (m ≫= f).
Proof.
  unfold quiet. intros Hm Hf. destruct (outcome m) as [a|err] eqn:Ho.
  - rewrite (bind_Ok _ _ _ Ho). cbn [trace].
    now rewrite raw_tracebacks_app, Hm, Hf.
  - now rewrite (bind_Raise _ _ _ Ho).
Qed.

Lemma quiet_set_color h type_text : quiet (set_color h type_text).
Proof.
  unfold quiet.
  destruct (set_color_cases h type_text) as [[err ->]|[c ->]]; reflexivity.
Qed.

Lemma quiet_write_filename h path lineno : quiet (write_filename h path lineno).
Proof.
  unfold quiet, write_filename. destruct lineno; [|reflexivity].
  now destruct (is_marker path).
Qed.

Lemma quiet_for_each {A} (xs : list A) (body : A -> M unit) :
  (forall x, quiet (body x)) -> quiet (for_each xs body).
Proof.
  intros Hb. induction xs as [|x xs IH]; [reflexivity|].
  cbn [for_each]. apply quiet_bind; [apply Hb|intros _; exact IH].
Qed.

(** Split a sequence of statements that print text and set colours. *)
Ltac quiet_steps :=
  repeat first
    [ apply quiet_set_color
    | apply quiet_write_filename
    | reflexivity
    | apply quiet_bind; [|intros ?] ].

Lemma quiet_render_frame h f : quiet (render_frame h f).
Proof. unfold render_frame. quiet_steps. Qed.

Lemma quiet__excepthook h e : quiet (_excepthook h e).
Proof.
  unfold _excepthook. quiet_steps.
  - apply quiet_for_each. intros f. apply quiet_render_frame.
  - destruct (syntax e) as [se|]; [|reflexivity].
    unfold render_syntax_error. quiet_steps.
  - destruct (syntax e); [reflexivity|]. unfold quiet. reflexivity.
  - match goal with |- quiet (match ?x with _ => _ end) => destruct x end;
      quiet_steps.
Qed.

(** X13.  As long as the hook walks the chain without reaching the
    interpreter's recursion limit, it starts at the root of the chain:
    for every theme, what it prints begins with all that [_excepthook]
    prints for the exception at the end of the links the hook follows
    ([__cause__] first, otherwise an unsuppressed [__context__]), so
    nothing about a later exception comes before the traceback of the
    first one.  The limit is not reached when it leaves room for one
    nested call per exception on those links; past it, as on a chain
    with a cycle, nothing is stated. *)
Theorem root_printed_first (depth : nat) (h : host) (e : exn) :
  ((chain_length e <= depth)%nat ->
   excepthook_within depth h e = Some (excepthook h e))
  /\ (forall m,
        excepthook_within depth h e = Some m ->
        exists rest, trace m = trace (_excepthook h (root e)) ++ rest).
Proof.
  split.
  - apply excepthook_within_enough.
  - intros m Hm. rewrite (excepthook_within_eq h depth e m Hm).
    apply excepthook_starts_at_root.
Qed.

Lemma root_printed_first_witness :
  exists rest,
    trace (excepthook sample_host runtime_error_during_value_error)
    = trace (_excepthook sample_host value_error) ++ rest.
Proof.
  apply (root_printed_first 2 sample_host runtime_error_during_value_error).
  reflexivity.
Defined.

(** ** The report of a whole chain *)

Lemma excepthook_chain_report (h : host) (hd : string) (e : exn) :
  palette_ok h ->
  theme_colors (theme_dict h) !! "default_text"%string = Some hd ->
  plain e = true ->
  outcome (excepthook h e) = Ok tt
  /\ printed_text (trace (excepthook h e)) = chain_text h e
  /\ quiet (excepthook h e).
Proof.
  intros Hp Hd. destruct Hp as ([he He] & Hp').
  assert (Hp : palette_ok h) by (split; [now exists he|exact Hp']).
  induction e as [m q s st tb ca cx su IHca IHcx] using exn_chain_ind.
  intros Hpl. cbn [plain syntax exc_str cause context suppress_context] in Hpl.
  apply andb_prop in Hpl as [Hpl Hlinks]. apply andb_prop in Hpl as [Hsy Hst].
  destruct s as [se|]; [discriminate Hsy|]. destruct st as [msg|err]; [|discriminate Hst].
  set (e := Exn m q None (Ok msg) tb ca cx su).
  destruct (_excepthook_text h e msg Hp eq_refl eq_refl) as [Hto Htt].
  assert (Htb : printed_text (trace (_excepthook h e)) = traceback_of h e).
  { rewrite Htt. unfold traceback_of. cbn [exc_str e]. now destruct msg. }
  assert (Hrun : forall (pre : M unit) (text : pystr),
            outcome pre = Ok tt -> printed_text (trace pre) = text -> quiet pre ->
            outcome (guarded h (pre;; _excepthook h e)) = Ok tt
            /\ printed_text (trace (guarded h (pre;; _excepthook h e)))
               = text ++ traceback_of h e
            /\ quiet (guarded h (pre;; _excepthook h e))).
  { intros pre text Hpo Hpt Hpq. unfold quiet.
    rewrite (guarded_restores h he hd _ He Hd).
    rewrite (bind_Ok _ _ tt Hpo). cbn [outcome trace]. rewrite Hto.
    cbn [outcome trace]. split; [reflexivity|]. split.
    - rewrite !printed_text_app, Hpt, Htb. cbn. now rewrite app_nil_r.
    - rewrite !raw_tracebacks_app, Hpq, (quiet__excepthook h e). reflexivity. }
  assert (Hlink : forall c (sentence : pystr),
            outcome (excepthook h c) = Ok tt ->
            printed_text (trace (excepthook h c)) = chain_text h c ->
            quiet (excepthook h c) ->
            outcome (excepthook h c;;
                     mkM [SetColor error_red; Print NL; Print (sentence ++ NL); Print NL]
                         (Ok tt)) = Ok tt
            /\ printed_text
                 (trace (excepthook h c;;
                         mkM [SetColor error_red; Print NL; Print (sentence ++ NL);
                              Print NL] (Ok tt)))
               = chain_text h c ++ NL ++ sentence ++ NL ++ NL
            /\ quiet (excepthook h c;;
                      mkM [SetColor error_red; Print NL; Print (sentence ++ NL);
                           Print NL] (Ok tt))).
  { intros c sentence Ho Ht Hq. split; [|split].
    - now rewrite (bind_Ok _ _ tt Ho).
    - rewrite (bind_Ok _ _ tt Ho). cbn [outcome trace].
      rewrite printed_text_app, Ht. cbn.
      now rewrite <- ?app_assoc, ?app_nil_r.
    - apply quiet_bind; [exact Hq|intros _; reflexivity]. }
  assert (Hleaf : outcome (guarded h (mret tt;; _excepthook h e)) = Ok tt
            /\ printed_text (trace (guarded h (mret tt;; _excepthook h e)))
               = traceback_of h e
            /\ quiet (guarded h (mret tt;; _excepthook h e))).
  { exact (Hrun (mret tt) [] eq_refl eq_refl eq_refl). }
  rewrite excepthook_eq. unfold chain_prefix. fold e.
  cbn [chain_text cause context suppress_context e] in *.
  destruct ca as [c|].
  - destruct (IHca Hlinks) as (Ho & Ht & Hq).
    destruct (Hlink c
      (u "The above exception was the direct cause of the following exception:")
      Ho Ht Hq) as (Ho' & Ht' & Hq').
    destruct (Hrun _ _ Ho' Ht' Hq') as (Hro & Hrt & Hrq).
    split; [exact Hro|]. split; [|exact Hrq].
    unfold cause_separator. rewrite Hrt. now rewrite <- ?app_assoc.
  - destruct cx as [c|]; [|exact Hleaf].
    destruct su; cbn [negb] in *; [exact Hleaf|].
    destruct (IHcx Hlinks) as (Ho & Ht & Hq).
    destruct (Hlink c
      (u "During handling of the above exception, another exception occurred:")
      Ho Ht Hq) as (Ho' & Ht' & Hq').
    destruct (Hrun _ _ Ho' Ht' Hq') as (Hro & Hrt & Hrq).
    split; [exact Hro|]. split; [|exact Hrq].
    unfold context_separator. rewrite Hrt. now rewrite <- ?app_assoc.
Qed.

(** X14.  Under a theme with the traceback colours and ["default_text"],
    for an exception such that neither it nor any exception the hook
    reaches from it is a syntax error or has a failing [str], and as long
    as the hook walks the chain without reaching the interpreter's
    recursion limit: the hook returns normally, it prints no raw
    traceback, and the text it puts on the console is the standard
    chained report, the tracebacks from the first exception raised to the
    last, each later one after a blank line, the sentence of its link and
    another blank line.  The limit is not reached when it leaves room for
    one nested call per exception on the links; past it, as on a chain
    with a cycle, nothing is stated. *)
Theorem excepthook_prints_chain (depth : nat) (h : host) (hd : string) (e : exn) :
  palette_ok h ->
  theme_colors (theme_dict h) !! "default_text"%string = Some hd ->
  plain e = true ->
  ((chain_length e <= depth)%nat ->
   excepthook_within depth h e = Some (excepthook h e))
  /\ (forall m,
        excepthook_within depth h e = Some m ->
        outcome m = Ok tt
        /\ raw_tracebacks (trace m) = []
        /\ printed_text (trace m) = chain_text h e).
Proof.
  intros Hp Hd Hpl. split.
  - apply excepthook_within_enough.
  - intros m Hm. rewrite (excepthook_within_eq h depth e m Hm).
    destruct (excepthook_chain_report h hd e Hp Hd Hpl) as (Ho & Ht & Hq).
    repeat split; assumption.
Qed.

Lemma excepthook_prints_chain_witness :
  outcome (excepthook sample_host runtime_error_during_value_error) = Ok tt
  /\ raw_tracebacks (trace (excepthook sample_host runtime_error_during_value_error))
     = []
  /\ printed_text (trace (excepthook sample_host runtime_error_during_value_error))
     = chain_text sample_host runtime_error_during_value_error.
Proof.
  apply (excepthook_prints_chain 2 sample_host "#000000"
           runtime_error_during_value_error).
  - repeat split; eexists; reflexivity.
  - reflexivity.
  - reflexivity.
  - reflexivity.
Defined.

(** ** The value of a blended colour *)

(** C6 (amended).  For each blended token (file name, line number,
    function name) and every theme that has ["error_text"] and the colour
    of the token's scope, the colour [set_color] sets is fixed by the
    theme, and each of its three channels is [round(., 2)] of the
    binary64 mean [(a + b) / 2], where [a] and [b] are the channels of
    the scope colour and of the error colour as [hex2rgb] returns them:
    each one already rounded to two decimal digits, not the channels of
    the theme's own colours. *)
Theorem blended_color_is_rounded_mean
    (half_even : bool) (components : string -> list float) (h : host)
    (type_text scope_name he hs : string) :
  (type_text, scope_name) ∈ blended_tokens ->
  theme_colors (theme_dict h) !! "error_text"%string = Some he ->
  scope_color h scope_name = Some hs ->
  let blend := fun a b : float =>
    round2 half_even
      (PrimFloat.div (PrimFloat.add (round2 half_even a) (round2 half_even b))
                     (float_of_Z 2)) in
  exists c,
    set_color h type_text = mkM [SetColor c] (Ok tt)
    /\ color_value half_even components c
       = mean_color half_even (hex2rgb half_even components hs)
                              (hex2rgb half_even components he)
    /\ (forall r g b rest r' g' b' rest',
          components hs = r :: g :: b :: rest ->
          components he = r' :: g' :: b' :: rest' ->
          color_value half_even components c
          = Some [blend r r'; blend g g'; blend b b']).
Proof.
  intros Hin He Hs blend.
  exists (MeanRound2 (Hex2rgb hs) (Hex2rgb he)).
  split; [|split].
  - destruct (set_color_lookups h he He) as (_ & _ & Hb & _).
    now apply (Hb type_text scope_name hs).
  - reflexivity.
  - intros r g b rest r' g' b' rest' Hrs Hre.
    cbn [color_value]. unfold hex2rgb. rewrite Hrs, Hre. reflexivity.
Qed.

Lemma blended_color_is_rounded_mean_witness :
  exists c,
    set_color sample_host "lineno" = mkM [SetColor c] (Ok tt)
    /\ color_value true sample_components c
       = mean_color true (hex2rgb true sample_components "#222222")
                         (hex2rgb true sample_components "#ff0000")
    /\ (forall r g b rest r' g' b' rest',
          sample_components "#222222" = r :: g :: b :: rest ->
          sample_components "#ff0000" = r' :: g' :: b' :: rest' ->
          color_value true sample_components c
          = Some [round2 true (PrimFloat.div
                                 (PrimFloat.add (round2 true r) (round2 true r'))
                                 (float_of_Z 2));
                  round2 true (PrimFloat.div
                                 (PrimFloat.add (round2 true g) (round2 true g'))
                                 (float_of_Z 2));
                  round2 true (PrimFloat.div
                                 (PrimFloat.add (round2 true b) (round2 true b'))
                                 (float_of_Z 2))]).
Proof.
  apply (blended_color_is_rounded_mean true sample_components sample_host
           "lineno" "number" "#ff0000" "#222222").
  - right. left.
  - reflexivity.
  - reflexivity.
Defined.

(** C6 fails as stated.  The scope colour [#111111] has the channels
    17/255 and the error colour [#ff0000] the channels 1, 0, 0.  The mean
    of the red channels is 0.5333..., 0.53 to two digits, and that of the
    others 0.0333..., 0.03; [set_color] blends the rounded channels 0.07
    with 1.0 and 0.0 and sets 0.54, 0.04, 0.04, on Python 3 as on
    Python 2.  For the scope colour [#222222], channels 34/255, it sets
    the red channel 0.56, where the mean of the theme's channels,
    0.5666..., and the exact mean of the channels [hex2rgb] returns, the
    binary64 numbers nearest to 0.13 and 1.0, both round to 0.57: the sum
    1.13 is rounded before it is halved. *)
Lemma blended_color_is_not_the_rounded_mean :
  let dark := PrimFloat.div (float_of_Z 17) (float_of_Z 255) in
  let grey := PrimFloat.div (float_of_Z 34) (float_of_Z 255) in
  let c := MeanRound2 (Hex2rgb "#111111") (Hex2rgb "#ff0000") in
  let c' := MeanRound2 (Hex2rgb "#222222") (Hex2rgb "#ff0000") in
  (set_color sample_host "filename" = mkM [SetColor c] (Ok tt)
   /\ sample_components "#111111" = [dark; dark; dark; float_of_Z 1]
   /\ sample_components "#ff0000"
      = [float_of_Z 1; float_of_Z 0; float_of_Z 0; float_of_Z 1]
   /\ color_value true sample_components c
      = Some [hundredth 54; hundredth 4; hundredth 4]
   /\ color_value false sample_components c
      = Some [hundredth 54; hundredth 4; hundredth 4]
   /\ rounded_exact_mean true dark (float_of_Z 1) = Some (hundredth 53)
   /\ rounded_exact_mean false dark (float_of_Z 1) = Some (hundredth 53)
   /\ rounded_exact_mean true dark (float_of_Z 0) = Some (hundredth 3)
   /\ rounded_exact_mean false dark (float_of_Z 0) = Some (hundredth 3))
  /\ (set_color sample_host "lineno" = mkM [SetColor c'] (Ok tt)
      /\ sample_components "#222222" = [grey; grey; grey; float_of_Z 1]
      /\ hex2rgb true sample_components "#222222"
         = [hundredth 13; hundredth 13; hundredth 13]
      /\ hex2rgb true sample_components "#ff0000"
         = [hundredth 100; hundredth 0; hundredth 0]
      /\ color_value true sample_components c'
         = Some [hundredth 56; hundredth 7; hundredth 7]
      /\ color_value false sample_components c'
         = Some [hundredth 56; hundredth 7; hundredth 7]
      /\ rounded_exact_mean true grey (float_of_Z 1) = Some (hundredth 57)
      /\ rounded_exact_mean false grey (float_of_Z 1) = Some (hundredth 57)
      /\ rounded_exact_mean true (hundredth 13) (hundredth 100)
         = Some (hundredth 57)
      /\ rounded_exact_mean false (hundredth 13) (hundredth 100)
         = Some (hundredth 57))
  /\ hundredth 54 <> hundredth 53
  /\ hundredth 4 <> hundredth 3
  /\ hundredth 56 <> hundredth 57.
Proof.
  cbv zeta. repeat split; try (vm_compute; reflexivity).
  - intros H.
    pose proof (f_equal (fun x => PrimFloat.ltb (hundredth 53) x) H) as E.
    vm_compute in E. discriminate E.
  - intros H.
    pose proof (f_equal (fun x => PrimFloat.ltb (hundredth 3) x) H) as E.
    vm_compute in E. discriminate E.
  - intros H.
    pose proof (f_equal (fun x => PrimFloat.ltb x (hundredth 57)) H) as E.
    vm_compute in E. discriminate E.
Qed.

(** The three blended colours of the sample theme, whose error colour is
    [#ff0000]: scope [#111111] gives 0.54, 0.04, 0.04, scope [#222222]
    gives 0.56, 0.07, 0.07 and scope [#333333] gives 0.6, 0.1, 0.1. *)
Example sample_blended_colors :
  List.map (fun scope => color_value true sample_components
                           (MeanRound2 (Hex2rgb scope) (Hex2rgb "#ff0000")))
           ["#111111"; "#222222"; "#333333"]%string
  = [ Some [hundredth 54; hundredth 4; hundredth 4];
      Some [hundredth 56; hundredth 7; hundredth 7];
      Some [hundredth 60; hundredth 10; hundredth 10] ].
Proof. vm_compute. reflexivity. Qed.

(** [round(x, 2)] on exact ties, 0.125 and 0.375: Python 3 goes to the
    even neighbour, Python 2 away from zero; 2.675 is below the tie in
    binary64 and gives 2.67 on both. *)
Example round2_ties :
  round2 true (PrimFloat.div (float_of_Z 1) (float_of_Z 8)) = hundredth 12
  /\ round2 false (PrimFloat.div (float_of_Z 1) (float_of_Z 8)) = hundredth 13
  /\ round2 true (PrimFloat.div (float_of_Z 3) (float_of_Z 8)) = hundredth 38
  /\ round2 false (PrimFloat.div (float_of_Z 3) (float_of_Z 8)) = hundredth 38
  /\ round2 true (PrimFloat.div (float_of_Z 2675) (float_of_Z 1000)) = hundredth 267
  /\ round2 false (PrimFloat.div (float_of_Z 2675) (float_of_Z 1000)) = hundredth 267.
Proof. repeat split; vm_compute; reflexivity. Qed.
